(** * provision.py: an EC2 provisioning script, embedded and verified

    The script is one linear procedure: load a YAML configuration, find the
    account's default VPC, find or create a security group, launch a batch of
    instances, wait for them, print a summary.  Every step is a call to the
    boto3 EC2 client followed by straight-line error checks.

    The embedding is a state-and-exception monad.  The state holds the remote
    account (an abstract world the client operations act on), the log of the
    client calls made so far and the lines printed on standard output.  A
    computation ends with a value or with a raised Python exception;
    [sys.exit] raises [SystemExit], as in Python. *)

From Stdlib Require Import ZArith Lia.
From stdpp Require Import base list strings gmap pretty.

Local Open Scope Z_scope.
Local Open Scope string_scope.
Local Open Scope list_scope.

(** ** Python values met by the script *)

(** A scalar of the parsed YAML document.  Anything that is neither a string
    nor an integer, a boolean or null is kept with its [str()] rendering. *)
Inductive yval : Type :=
  | YNone
  | YBool (b : bool)
  | YInt (z : Z)
  | YStr (s : string)
  | YOther (rendering : string).

(** What [yaml.safe_load] returns: a mapping, or a document that is not one
    (null, a scalar, a sequence). *)
Inductive Document : Type :=
  | DocMap (m : gmap string yval)
  | DocOther (v : yval).

(** [str(v)], as an f-string formats a value. *)
Definition py_str (v : yval) : string :=
  match v with
  | YNone => "None"
  | YBool true => "True"
  | YBool false => "False"
  | YInt z => pretty z
  | YStr s => s
  | YOther r => r
  end.

(** [needle in hay] on Python strings: substring test. *)
Fixpoint str_in (needle hay : string) : bool :=
  if String.prefix needle hay then true
  else match hay with
       | EmptyString => false
       | String _ rest => str_in needle rest
       end.

(** [sep.join(parts)] *)
Definition join (sep : string) (parts : list string) : string :=
  String.concat sep parts.

(** ["-" * n] *)
Fixpoint str_repeat (s : string) (n : nat) : string :=
  match n with
  | O => ""
  | S k => s +:+ str_repeat s k
  end.

Definition newline : string := String (Ascii.ascii_of_nat 10) EmptyString.

(** Python exceptions the script can meet. *)
Inductive exn : Type :=
  | SystemExit (code : Z)
  | ClientError (msg : string)
  | WaiterError (msg : string)
  | KeyError (key : string)
  | IndexError
  | TypeError.

Inductive outcome (A : Type) : Type :=
  | Return (a : A)
  | Raise (e : exn).
Arguments Return {A} a.
Arguments Raise {A} e.

(** Exit status of the interpreter: 0 after a normal end, the code of
    [sys.exit], and 1 after any other uncaught exception. *)
Definition exit_status {A : Type} (o : outcome A) : Z :=
  match o with
  | Return _ => 0
  | Raise (SystemExit code) => code
  | Raise _ => 1
  end.

(** ** The EC2 client *)

Module Ec2.

Record Filter := { Name : string; Values : list string }.
Record Vpc := { VpcId : string }.
Record SecurityGroup := { GroupId : string }.
Record IpRange := { CidrIp : string }.
Record IpPermission := {
  IpProtocol : string;
  FromPort : Z;
  ToPort : Z;
  IpRanges : list IpRange
}.
Record Tag := { Key : string; Value : string }.
Record TagSpecification := { ResourceType : string; Tags : list Tag }.
Record RunInstancesRequest := {
  ImageId : yval;
  MinCount : Z;
  MaxCount : yval;
  InstanceType : yval;
  KeyName : yval;
  SecurityGroupIds : list string;
  TagSpecifications : list TagSpecification
}.
Record Instance := { InstanceId : string; PublicIpAddress : option string }.
Record Reservation := { Instances : list Instance }.

(** A remote operation answers or fails; the failure carries [str(e)] of
    the exception the client raises. *)
Inductive reply (A : Type) : Type :=
  | Ok (a : A)
  | Fails (msg : string).
Arguments Ok {A} a.
Arguments Fails {A} msg.

(** The operations the script uses, over an abstract account state [W].
    The two waiters are [get_waiter(name).wait]. *)
Record Client (W : Type) := {
  describe_vpcs : list Filter -> W -> reply (list Vpc) * W;
  describe_security_groups : list yval -> W -> reply (list SecurityGroup) * W;
  create_security_group : yval -> yval -> string -> W -> reply string * W;
  authorize_security_group_ingress :
    string -> list IpPermission -> W -> reply unit * W;
  run_instances : RunInstancesRequest -> W -> reply (list Instance) * W;
  wait_instance_running : list string -> W -> reply unit * W;
  describe_instances : list string -> W -> reply (list Reservation) * W;
  terminate_instances : list string -> W -> reply unit * W;
  wait_instance_terminated : list string -> W -> reply unit * W;
  delete_security_group : string -> W -> reply unit * W
}.
Arguments describe_vpcs {W}.
Arguments describe_security_groups {W}.
Arguments create_security_group {W}.
Arguments authorize_security_group_ingress {W}.
Arguments run_instances {W}.
Arguments wait_instance_running {W}.
Arguments describe_instances {W}.
Arguments terminate_instances {W}.
Arguments wait_instance_terminated {W}.
Arguments delete_security_group {W}.

(** What the script asked of its environment, for the call log. *)
Inductive Call : Type :=
  | NewClient (region_name : yval)
  | DescribeVpcs (Filters : list Filter)
  | DescribeSecurityGroups (GroupNames : list yval)
  | CreateSecurityGroup (GroupName Description : yval) (vpc : string)
  | AuthorizeSecurityGroupIngress (group : string) (perms : list IpPermission)
  | RunInstances (req : RunInstancesRequest)
  | WaitInstanceRunning (ids : list string)
  | DescribeInstances (ids : list string)
  | TerminateInstances (ids : list string)
  | WaitInstanceTerminated (ids : list string)
  | Sleep (seconds : Z)
  | DeleteSecurityGroup (group : string).

End Ec2.

(** One entry of the call log: the call and, when it failed, the message. *)
Record Event := { ev_call : Ec2.Call; ev_error : option string }.

Definition answered (c : Ec2.Call) : Event := {| ev_call := c; ev_error := None |}.
Definition refused (c : Ec2.Call) (msg : string) : Event :=
  {| ev_call := c; ev_error := Some msg |}.

(** The local machine: the file system as [open] sees it ([None] is
    [FileNotFoundError]), the YAML parser ([inl] is the text of a
    [yaml.YAMLError]) and the clock read by [time.time()].  These are the
    two failures [load_config] handles; the other failures of [open] and of
    the read (a directory, a missing permission, bytes that do not decode),
    which it lets through, are not represented. *)
Record Host := {
  open_read : string -> option string;
  yaml_safe_load : string -> string + Document;
  time_time : Z
}.

(** ** The monad *)

Record State (W : Type) := {
  world : W;
  calls : list Event;
  stdout : list string
}.
Arguments world {W}.
Arguments calls {W}.
Arguments stdout {W}.

Definition initial {W : Type} (w : W) : State W :=
  {| world := w; calls := []; stdout := [] |}.

Definition M (W A : Type) : Type := State W -> outcome A * State W.

Definition ret {W A : Type} (a : A) : M W A := fun st => (Return a, st).

Definition raise {W A : Type} (e : exn) : M W A := fun st => (Raise e, st).

Definition bind {W A B : Type} (m : M W A) (k : A -> M W B) : M W B :=
  fun st =>
    match m st with
    | (Return a, st') => k a st'
    | (Raise e, st') => (Raise e, st')
    end.

Declare Scope py_scope.
Delimit Scope py_scope with py.
Notation "x <- m ;; k" := (bind m (fun x => k))
  (at level 100, m at next level, right associativity) : py_scope.
Notation "m ;; k" := (bind m (fun _ => k))
  (at level 100, right associativity) : py_scope.
Local Open Scope py_scope.

(** [try: body / except ClientError as e: handler]: only a [ClientError]
    is caught; [SystemExit], [KeyError] and the rest pass through. *)
Definition try_except_ClientError {W A : Type}
    (body : M W A) (handler : string -> M W A) : M W A :=
  fun st =>
    match body st with
    | (Raise (ClientError msg), st') => handler msg st'
    | other => other
    end.

Definition print {W : Type} (line : string) : M W unit :=
  fun st =>
    (Return tt,
     {| world := world st; calls := calls st; stdout := stdout st ++ [line] |}).

Definition sys_exit {W A : Type} (code : Z) : M W A := raise (SystemExit code).

Definition log {W : Type} (e : Event) (w : W) (st : State W) : State W :=
  {| world := w; calls := calls st ++ [e]; stdout := stdout st |}.

(** A client operation: logged, and a failure raised as [ClientError].
    The failures of the client library that are not a [ClientError] (no
    credentials, no connection, a rejected parameter) are not represented:
    a statement about a refused call is about a [ClientError]. *)
Definition invoke {W A : Type} (c : Ec2.Call)
    (op : W -> Ec2.reply A * W) : M W A :=
  fun st =>
    match op (world st) with
    | (Ec2.Ok a, w) => (Return a, log (answered c) w st)
    | (Ec2.Fails msg, w) => (Raise (ClientError msg), log (refused c msg) w st)
    end.

(** A waiter: a failed wait raises botocore's [WaiterError], which is not a
    [ClientError]. *)
Definition wait {W : Type} (c : Ec2.Call)
    (op : W -> Ec2.reply unit * W) : M W unit :=
  fun st =>
    match op (world st) with
    | (Ec2.Ok a, w) => (Return a, log (answered c) w st)
    | (Ec2.Fails msg, w) => (Raise (WaiterError msg), log (refused c msg) w st)
    end.

(** A local action that cannot fail ([boto3.client], [time.sleep]). *)
Definition act {W : Type} (c : Ec2.Call) : M W unit :=
  fun st => (Return tt, log (answered c) (world st) st).

(** [config[key]] *)
Definition getitem {W : Type} (config : Document) (key : string) : M W yval :=
  match config with
  | DocMap m =>
      match m !! key with
      | Some v => ret v
      | None => raise (KeyError key)
      end
  | DocOther _ => raise TypeError
  end.

(** [xs[i]] on a list *)
Definition index {W A : Type} (xs : list A) (i : nat) : M W A :=
  match xs !! i with
  | Some x => ret x
  | None => raise IndexError
  end.

(** ** The script *)

Section Script.

Context {W : Type} (host : Host) (ec2_client : Ec2.Client W).

(** provision.py, lines 7-18 *)
Definition load_config (config_path : string) : M W Document :=
  match open_read host config_path with
  | None =>
      print ("Error: Config file '" +:+ config_path +:+ "' not found.") ;;
      sys_exit 1
  | Some file =>
      match yaml_safe_load host file with
      | inl e =>
          print ("Error parsing config file '" +:+ config_path +:+ "': " +:+ e) ;;
          sys_exit 1
      | inr config => ret config
      end
  end.

(** provision.py, lines 20-76 *)
Definition create_security_group
    (vpc_id : string) (sg_name sg_description : yval) : M W string :=
  print ("Checking for existing security group: " +:+ py_str sg_name +:+ "...") ;;
  try_except_ClientError
    (response <- invoke (Ec2.DescribeSecurityGroups [sg_name])
                   (Ec2.describe_security_groups ec2_client [sg_name]) ;;
     first <- index response 0 ;;
     let sg_id := Ec2.GroupId first in
     print ("Security Group '" +:+ py_str sg_name
            +:+ "' already exists with ID: " +:+ sg_id) ;;
     ret sg_id)
    (fun e =>
       if str_in "DoesNotExist" e then
         print ("Security Group '" +:+ py_str sg_name
                +:+ "' does not exist. Creating...") ;;
         try_except_ClientError
           (sg_id <- invoke (Ec2.CreateSecurityGroup sg_name sg_description vpc_id)
                       (Ec2.create_security_group ec2_client
                          sg_name sg_description vpc_id) ;;
            print ("Security Group '" +:+ py_str sg_name
                   +:+ "' created with ID: " +:+ sg_id) ;;
            let ssh := [ {| Ec2.IpProtocol := "tcp";
                            Ec2.FromPort := 22;
                            Ec2.ToPort := 22;
                            Ec2.IpRanges := [ {| Ec2.CidrIp := "0.0.0.0/0" |} ] |} ] in
            invoke (Ec2.AuthorizeSecurityGroupIngress sg_id ssh)
              (Ec2.authorize_security_group_ingress ec2_client sg_id ssh) ;;
            print ("Ingress rule for SSH (Port 22) added to "
                   +:+ py_str sg_name +:+ ".") ;;
            let http := [ {| Ec2.IpProtocol := "tcp";
                             Ec2.FromPort := 80;
                             Ec2.ToPort := 80;
                             Ec2.IpRanges := [ {| Ec2.CidrIp := "0.0.0.0/0" |} ] |} ] in
            invoke (Ec2.AuthorizeSecurityGroupIngress sg_id http)
              (Ec2.authorize_security_group_ingress ec2_client sg_id http) ;;
            print ("Ingress rule for HTTP (Port 80) added to "
                   +:+ py_str sg_name +:+ ".") ;;
            ret sg_id)
           (fun creation_error =>
              print ("Error creating security group or adding rules: "
                     +:+ creation_error) ;;
              sys_exit 1)
       else
         print ("Error describing security group: " +:+ e) ;;
         sys_exit 1).

(** provision.py, lines 117-121: the addresses of the instances that
    have one, in the order of the answer. *)
Definition collect_public_ips (reservations : list Ec2.Reservation) : list string :=
  foldl
    (fun (public_ips : list string) reservation =>
       foldl
         (fun (public_ips : list string) instance =>
            match Ec2.PublicIpAddress instance with
            | Some ip => (public_ips ++ [ip])%list
            | None => public_ips
            end)
         public_ips (Ec2.Instances reservation))
    [] reservations.

(** provision.py, lines 124-132: [for i, instance_id in
    enumerate(instance_ids)], from index [i] on. *)
Fixpoint summary_loop (config : Document) (sg_id : string)
    (public_ips : list string) (i : nat) (instance_ids : list string)
    : M W unit :=
  match instance_ids with
  | [] => ret tt
  | instance_id :: rest =>
      print ("Instance ID: " +:+ instance_id) ;;
      (if (i <? length public_ips)%nat
       then ip <- index public_ips i ;; print ("Public IP: " +:+ ip)
       else ret tt) ;;
      instance_type <- getitem config "instance_type" ;;
      print ("Instance Type: " +:+ py_str instance_type) ;;
      ami_id <- getitem config "ami_id" ;;
      print ("AMI ID: " +:+ py_str ami_id) ;;
      key_pair_name <- getitem config "key_pair_name" ;;
      print ("Key Pair: " +:+ py_str key_pair_name) ;;
      security_group_name <- getitem config "security_group_name" ;;
      print ("Security Group: " +:+ py_str security_group_name
             +:+ " (" +:+ sg_id +:+ ")") ;;
      print (str_repeat "-" 25) ;;
      summary_loop config sg_id public_ips (S i) rest
  end.

(** provision.py, lines 78-144 *)
Definition provision_ec2_instance (config : Document) (sg_id : string)
    : M W (list string * list string) :=
  instance_count <- getitem config "instance_count" ;;
  print (newline +:+ "Attempting to launch " +:+ py_str instance_count
         +:+ " EC2 instance(s)...") ;;
  try_except_ClientError
    (ami_id <- getitem config "ami_id" ;;
     instance_count <- getitem config "instance_count" ;;
     instance_type <- getitem config "instance_type" ;;
     key_pair_name <- getitem config "key_pair_name" ;;
     let request :=
       {| Ec2.ImageId := ami_id;
          Ec2.MinCount := 1;
          Ec2.MaxCount := instance_count;
          Ec2.InstanceType := instance_type;
          Ec2.KeyName := key_pair_name;
          Ec2.SecurityGroupIds := [sg_id];
          Ec2.TagSpecifications :=
            [ {| Ec2.ResourceType := "instance";
                 Ec2.Tags :=
                   [ {| Ec2.Key := "Name";
                        Ec2.Value := "Automated-Instance-"
                                     +:+ pretty (time_time host) |};
                     {| Ec2.Key := "Project";
                        Ec2.Value := "Python-DevOps-Provisioner" |} ] |} ] |} in
     instances <- invoke (Ec2.RunInstances request)
                    (Ec2.run_instances ec2_client request) ;;
     let instance_ids := map Ec2.InstanceId instances in
     print ("Launched instance(s) with IDs: " +:+ join ", " instance_ids) ;;
     print "Waiting for instance(s) to enter 'running' state..." ;;
     wait (Ec2.WaitInstanceRunning instance_ids)
       (Ec2.wait_instance_running ec2_client instance_ids) ;;
     print "Instance(s) are now running." ;;
     running_instances <- invoke (Ec2.DescribeInstances instance_ids)
                            (Ec2.describe_instances ec2_client instance_ids) ;;
     let public_ips := collect_public_ips running_instances in
     print (newline +:+ "--- Provisioning Summary ---") ;;
     summary_loop config sg_id public_ips 0 instance_ids ;;
     ret (instance_ids, public_ips))
    (fun e =>
       print ("Error launching EC2 instance(s): " +:+ e) ;;
       (if str_in "InvalidKeyPair.NotFound" e
        then print "Please ensure the key_pair_name in config.yaml exists in your AWS EC2 Key Pairs."
        else ret tt) ;;
       (if str_in "InvalidAMIID.NotFound" e || str_in "InvalidAMIID.Malformed" e
        then print "Please verify the ami_id in config.yaml is correct for your region."
        else ret tt) ;;
       sys_exit 1).

(** Truth value of a list and of a string: empty is false. *)
Definition nonempty {A : Type} (xs : list A) : bool :=
  match xs with [] => false | _ :: _ => true end.

Definition nonempty_str (s : string) : bool :=
  match s with EmptyString => false | String _ _ => true end.

(** provision.py, lines 146-170 *)
Definition cleanup_resources (instance_ids : list string) (sg_id : string)
    : M W unit :=
  (if nonempty instance_ids then
     print (newline +:+ "Terminating instance(s): "
            +:+ join ", " instance_ids +:+ "...") ;;
     try_except_ClientError
       (invoke (Ec2.TerminateInstances instance_ids)
          (Ec2.terminate_instances ec2_client instance_ids) ;;
        wait (Ec2.WaitInstanceTerminated instance_ids)
          (Ec2.wait_instance_terminated ec2_client instance_ids) ;;
        print "Instance(s) terminated successfully.")
       (fun e => print ("Error terminating instance(s): " +:+ e))
   else ret tt) ;;
  (if nonempty_str sg_id then
     print ("Deleting security group: " +:+ sg_id +:+ "...") ;;
     try_except_ClientError
       (act (Ec2.Sleep 10) ;;
        invoke (Ec2.DeleteSecurityGroup sg_id)
          (Ec2.delete_security_group ec2_client sg_id) ;;
        print ("Security group '" +:+ sg_id +:+ "' deleted successfully."))
       (fun e =>
          print ("Error deleting security group '" +:+ sg_id +:+ "': " +:+ e) ;;
          print "You might need to manually delete the security group if instances were still attached.")
   else ret tt).

(** provision.py, lines 184-193: the default VPC of the account. *)
Definition default_vpc : M W string :=
  try_except_ClientError
    (let filters := [ {| Ec2.Name := "isDefault"; Ec2.Values := ["true"] |} ] in
     vpcs <- invoke (Ec2.DescribeVpcs filters)
               (Ec2.describe_vpcs ec2_client filters) ;;
     (if nonempty vpcs then ret tt
      else
        print "Error: No default VPC found. Please specify a VPC ID in config or create a default VPC." ;;
        sys_exit 1) ;;
     first <- index vpcs 0 ;;
     let default_vpc_id := Ec2.VpcId first in
     print ("Using Default VPC ID: " +:+ default_vpc_id) ;;
     ret default_vpc_id)
    (fun e =>
       print ("Error getting default VPC: " +:+ e) ;;
       sys_exit 1).

(** provision.py, lines 173-216: the program. *)
Definition main : M W unit :=
  config <- load_config "config.yaml" ;;
  region_name <- getitem config "aws_region" ;;
  act (Ec2.NewClient region_name) ;;
  default_vpc_id <- default_vpc ;;
  sg_name <- getitem config "security_group_name" ;;
  sg_description <- getitem config "security_group_description" ;;
  security_group_id <- create_security_group default_vpc_id sg_name sg_description ;;
  provisioned <- provision_ec2_instance config security_group_id ;;
  let provisioned_instance_ids := fst provisioned in
  print (newline +:+ "--- IMPORTANT: MANUAL CLEANUP REQUIRED ---") ;;
  print "Please manually terminate the created EC2 instance(s) and delete the security group from the AWS console" ;;
  print ("Instance IDs: " +:+ join ", " provisioned_instance_ids) ;;
  print ("Security Group ID: " +:+ security_group_id) ;;
  print "Alternatively, you can uncomment and call `cleanup_resources` function (USE WITH CAUTION)." ;;
  ret tt.

End Script.

(** The process: [main] run from a fresh state on account [w]. *)
Definition run_main {W : Type} (host : Host) (ec2_client : Ec2.Client W) (w : W)
    : outcome unit * State W :=
  main host ec2_client (initial w).

(** ** Reading the call log *)

Definition is_describe_security_groups (c : Ec2.Call) : bool :=
  match c with Ec2.DescribeSecurityGroups _ => true | _ => false end.

Definition is_create_security_group (c : Ec2.Call) : bool :=
  match c with Ec2.CreateSecurityGroup _ _ _ => true | _ => false end.

Definition is_authorize_ingress (c : Ec2.Call) : bool :=
  match c with Ec2.AuthorizeSecurityGroupIngress _ _ => true | _ => false end.

Definition is_delete_security_group (c : Ec2.Call) : bool :=
  match c with Ec2.DeleteSecurityGroup _ => true | _ => false end.

Definition is_run_instances (c : Ec2.Call) : bool :=
  match c with Ec2.RunInstances _ => true | _ => false end.

(** Any call about a security group or about an instance. *)
Definition is_group_or_instance_call (c : Ec2.Call) : bool :=
  match c with
  | Ec2.NewClient _ | Ec2.DescribeVpcs _ | Ec2.Sleep _ => false
  | _ => true
  end.

(** How many logged calls satisfy [p], whether answered or refused. *)
Fixpoint count_calls (p : Ec2.Call -> bool) (log : list Event) : nat :=
  match log with
  | [] => 0
  | e :: rest => (if p (ev_call e) then 1 else 0) + count_calls p rest
  end.

(** The two ingress rules of the script, as the client receives them. *)
Definition ingress_rule (port : Z) : list Ec2.IpPermission :=
  [ {| Ec2.IpProtocol := "tcp";
       Ec2.FromPort := port;
       Ec2.ToPort := port;
       Ec2.IpRanges := [ {| Ec2.CidrIp := "0.0.0.0/0" |} ] |} ].

Definition default_vpc_filters : list Ec2.Filter :=
  [ {| Ec2.Name := "isDefault"; Ec2.Values := ["true"] |} ].

(** ** A scripted client, for running the script on concrete accounts

    Each operation has a fixed reply; the reply of an ingress authorization
    depends on the port of the rule, the reply of a launch on the request.
    The account state counts the requests served. *)
Module Scripted.

Record Scenario := {
  on_describe_vpcs : Ec2.reply (list Ec2.Vpc);
  on_describe_security_groups : Ec2.reply (list Ec2.SecurityGroup);
  on_create_security_group : Ec2.reply string;
  on_authorize : Z -> Ec2.reply unit;
  on_run_instances : Ec2.RunInstancesRequest -> Ec2.reply (list Ec2.Instance);
  on_wait_running : Ec2.reply unit;
  on_describe_instances : Ec2.reply (list Ec2.Reservation);
  on_terminate : Ec2.reply unit;
  on_wait_terminated : Ec2.reply unit;
  on_delete : Ec2.reply unit
}.

Definition port_of (perms : list Ec2.IpPermission) : Z :=
  match perms with
  | [] => 0
  | p :: _ => Ec2.FromPort p
  end.

Definition client (s : Scenario) : Ec2.Client nat :=
  {| Ec2.describe_vpcs := fun _ n => (on_describe_vpcs s, S n);
     Ec2.describe_security_groups := fun _ n => (on_describe_security_groups s, S n);
     Ec2.create_security_group := fun _ _ _ n => (on_create_security_group s, S n);
     Ec2.authorize_security_group_ingress :=
       fun _ perms n => (on_authorize s (port_of perms), S n);
     Ec2.run_instances := fun req n => (on_run_instances s req, S n);
     Ec2.wait_instance_running := fun _ n => (on_wait_running s, S n);
     Ec2.describe_instances := fun _ n => (on_describe_instances s, S n);
     Ec2.terminate_instances := fun _ n => (on_terminate s, S n);
     Ec2.wait_instance_terminated := fun _ n => (on_wait_terminated s, S n);
     Ec2.delete_security_group := fun _ n => (on_delete s, S n) |}.

Definition instance_numbered (k : nat) : Ec2.Instance :=
  {| Ec2.InstanceId := "i-00" +:+ pretty (S k); Ec2.PublicIpAddress := None |}.

(** A region that can start [capacity] instances for this request: the
    launch is refused when the minimum asked for exceeds the capacity,
    and otherwise starts as many instances as it can up to the maximum. *)
Definition launch_with_capacity (capacity : nat) (req : Ec2.RunInstancesRequest)
    : Ec2.reply (list Ec2.Instance) :=
  match Ec2.MaxCount req with
  | YInt n =>
      if (Ec2.MinCount req <=? Z.of_nat capacity)%Z
      then Ec2.Ok (map instance_numbered
                     (seq 0 (Nat.min (Z.to_nat n) capacity)))
      else Ec2.Fails "An error occurred (InsufficientInstanceCapacity) when calling the RunInstances operation"
  | _ => Ec2.Fails "An error occurred (InvalidParameterValue) when calling the RunInstances operation"
  end.

(** An account with one default VPC and no security group yet, where
    every request is granted and the region has room for one instance. *)
Definition fresh_account : Scenario :=
  {| on_describe_vpcs := Ec2.Ok [ {| Ec2.VpcId := "vpc-0a1" |} ];
     on_describe_security_groups :=
       Ec2.Fails "An error occurred (InvalidGroup.DoesNotExist) when calling the DescribeSecurityGroups operation";
     on_create_security_group := Ec2.Ok "sg-0f1";
     on_authorize := fun _ => Ec2.Ok tt;
     on_run_instances := launch_with_capacity 1;
     on_wait_running := Ec2.Ok tt;
     on_describe_instances :=
       Ec2.Ok [ {| Ec2.Instances :=
                     [ {| Ec2.InstanceId := "i-001";
                          Ec2.PublicIpAddress := Some "203.0.113.7" |} ] |} ];
     on_terminate := Ec2.Ok tt;
     on_wait_terminated := Ec2.Ok tt;
     on_delete := Ec2.Ok tt |}.

Definition with_vpcs (r : Ec2.reply (list Ec2.Vpc)) (s : Scenario) : Scenario :=
  {| on_describe_vpcs := r;
     on_describe_security_groups := on_describe_security_groups s;
     on_create_security_group := on_create_security_group s;
     on_authorize := on_authorize s;
     on_run_instances := on_run_instances s;
     on_wait_running := on_wait_running s;
     on_describe_instances := on_describe_instances s;
     on_terminate := on_terminate s;
     on_wait_terminated := on_wait_terminated s;
     on_delete := on_delete s |}.

Definition with_groups (r : Ec2.reply (list Ec2.SecurityGroup)) (s : Scenario)
    : Scenario :=
  {| on_describe_vpcs := on_describe_vpcs s;
     on_describe_security_groups := r;
     on_create_security_group := on_create_security_group s;
     on_authorize := on_authorize s;
     on_run_instances := on_run_instances s;
     on_wait_running := on_wait_running s;
     on_describe_instances := on_describe_instances s;
     on_terminate := on_terminate s;
     on_wait_terminated := on_wait_terminated s;
     on_delete := on_delete s |}.

Definition with_authorize (r : Z -> Ec2.reply unit) (s : Scenario) : Scenario :=
  {| on_describe_vpcs := on_describe_vpcs s;
     on_describe_security_groups := on_describe_security_groups s;
     on_create_security_group := on_create_security_group s;
     on_authorize := r;
     on_run_instances := on_run_instances s;
     on_wait_running := on_wait_running s;
     on_describe_instances := on_describe_instances s;
     on_terminate := on_terminate s;
     on_wait_terminated := on_wait_terminated s;
     on_delete := on_delete s |}.

Definition with_launch
    (r : Ec2.RunInstancesRequest -> Ec2.reply (list Ec2.Instance))
    (d : Ec2.reply (list Ec2.Reservation)) (s : Scenario) : Scenario :=
  {| on_describe_vpcs := on_describe_vpcs s;
     on_describe_security_groups := on_describe_security_groups s;
     on_create_security_group := on_create_security_group s;
     on_authorize := on_authorize s;
     on_run_instances := r;
     on_wait_running := on_wait_running s;
     on_describe_instances := d;
     on_terminate := on_terminate s;
     on_wait_terminated := on_wait_terminated s;
     on_delete := on_delete s |}.

Definition with_reclaim (t d : Ec2.reply unit) (s : Scenario) : Scenario :=
  {| on_describe_vpcs := on_describe_vpcs s;
     on_describe_security_groups := on_describe_security_groups s;
     on_create_security_group := on_create_security_group s;
     on_authorize := on_authorize s;
     on_run_instances := on_run_instances s;
     on_wait_running := on_wait_running s;
     on_describe_instances := on_describe_instances s;
     on_terminate := t;
     on_wait_terminated := on_wait_terminated s;
     on_delete := d |}.

(** The configuration of the spec's end-to-end scenario, with a chosen
    instance count. *)
Definition config (instance_count : Z) : gmap string yval :=
  <["aws_region" := YStr "us-east-1"]>
  (<["ami_id" := YStr "ami-123"]>
  (<["instance_type" := YStr "t2.micro"]>
  (<["instance_count" := YInt instance_count]>
  (<["key_pair_name" := YStr "kp1"]>
  (<["security_group_name" := YStr "sg-test"]>
  (<["security_group_description" := YStr "test"]> ∅)))))).

(** A machine whose [config.yaml] parses to [doc]. *)
Definition host_with (doc : Document) : Host :=
  {| open_read := fun path => if String.eqb path "config.yaml" then Some "..." else None;
     yaml_safe_load := fun _ => inr doc;
     time_time := 1700000000 |}.

End Scripted.

(** ** Vocabulary of the statements *)

(** The seven fields the script reads from its configuration. *)
Definition required_fields : list string :=
  [ "aws_region"; "ami_id"; "instance_type"; "instance_count";
    "key_pair_name"; "security_group_name"; "security_group_description" ].

Definition has_field (config : Document) (key : string) : bool :=
  match config with
  | DocMap m => match m !! key with Some _ => true | None => false end
  | DocOther _ => false
  end.

Definition missing_fields (config : Document) : list string :=
  List.filter (fun key => negb (has_field config key)) required_fields.

(** A validated configuration: a mapping with none of the seven missing. *)
Definition validated (config : Document) : Prop := missing_fields config = [].

(** The value of a field that is present. *)
Definition field (config : Document) (key : string) : yval :=
  match config with
  | DocMap m => default YNone (m !! key)
  | DocOther _ => YNone
  end.

(** The keyword arguments of [run_instances], lines 83-103. *)
Definition launch_request (host : Host) (config : Document) (sg_id : string)
    : Ec2.RunInstancesRequest :=
  {| Ec2.ImageId := field config "ami_id";
     Ec2.MinCount := 1;
     Ec2.MaxCount := field config "instance_count";
     Ec2.InstanceType := field config "instance_type";
     Ec2.KeyName := field config "key_pair_name";
     Ec2.SecurityGroupIds := [sg_id];
     Ec2.TagSpecifications :=
       [ {| Ec2.ResourceType := "instance";
            Ec2.Tags :=
              [ {| Ec2.Key := "Name";
                   Ec2.Value := "Automated-Instance-" +:+ pretty (time_time host) |};
                {| Ec2.Key := "Project";
                   Ec2.Value := "Python-DevOps-Provisioner" |} ] |} ] |}.

(** The two sub-cases of a launch failure the script looks for in [str(e)]. *)
Definition invalid_key_pair (e : string) : bool :=
  str_in "InvalidKeyPair.NotFound" e.

Definition invalid_image (e : string) : bool :=
  str_in "InvalidAMIID.NotFound" e || str_in "InvalidAMIID.Malformed" e.

Definition key_pair_hint : string :=
  "Please ensure the key_pair_name in config.yaml exists in your AWS EC2 Key Pairs.".

Definition image_hint : string :=
  "Please verify the ami_id in config.yaml is correct for your region.".

Definition hint_lines (e : string) : list string :=
  ((if invalid_key_pair e then [key_pair_hint] else [])
   ++ (if invalid_image e then [image_hint] else []))%list.

Definition attempt_line (config : Document) : string :=
  newline +:+ "Attempting to launch " +:+ py_str (field config "instance_count")
  +:+ " EC2 instance(s)...".

(** The instances of an answer of [describe_instances], and those among
    them that have a public address. *)
Definition instances_of (reservations : list Ec2.Reservation) : list Ec2.Instance :=
  flat_map Ec2.Instances reservations.

Definition has_address (i : Ec2.Instance) : bool :=
  match Ec2.PublicIpAddress i with Some _ => true | None => false end.

Definition addressed (reservations : list Ec2.Reservation) : nat :=
  length (List.filter has_address (instances_of reservations)).

(** The lines of the summary for the instance at position [i]: the address
    line is there when the address list has a position [i]. *)
Definition summary_block (config : Document) (sg_id : string)
    (public_ips : list string) (i : nat) (instance_id : string) : list string :=
  (["Instance ID: " +:+ instance_id]
   ++ match public_ips !! i with
      | Some ip => ["Public IP: " +:+ ip]
      | None => []
      end
   ++ [ "Instance Type: " +:+ py_str (field config "instance_type");
        "AMI ID: " +:+ py_str (field config "ami_id");
        "Key Pair: " +:+ py_str (field config "key_pair_name");
        "Security Group: " +:+ py_str (field config "security_group_name")
          +:+ " (" +:+ sg_id +:+ ")";
        str_repeat "-" 25 ])%list.

Definition is_address_line (line : string) : bool :=
  String.prefix "Public IP: " line.

Definition address_lines (lines : list string) : nat :=
  length (List.filter is_address_line lines).

(** What a launch that goes through prints before the summary blocks. *)
Definition progress_lines (config : Document) (instance_ids : list string)
    : list string :=
  [ attempt_line config;
    "Launched instance(s) with IDs: " +:+ join ", " instance_ids;
    "Waiting for instance(s) to enter 'running' state...";
    "Instance(s) are now running.";
    newline +:+ "--- Provisioning Summary ---" ].

(** [st] followed by what a run from a fresh state left. *)
Definition followed_by {W : Type} (st st' : State W) : State W :=
  {| world := world st';
     calls := calls st ++ calls st';
     stdout := stdout st ++ stdout st' |}.

(** A computation that reads the account only and appends to the two logs:
    run after [st], it does what it does on a fresh state over the same
    account, after the history of [st]. *)
Definition appends {W A : Type} (m : M W A) : Prop :=
  forall st : State W,
    m st = ((m (initial (world st))).1,
            followed_by st (m (initial (world st))).2).

(** ** Vocabulary of the further statements *)

(** The fields [provision_ec2_instance] reads before it calls the client,
    in the order it reads them. *)
Definition launch_fields : list string :=
  [ "instance_count"; "ami_id"; "instance_type"; "key_pair_name" ].

(** The first of [keys] that the mapping lacks. *)
Definition first_missing (m : gmap string yval) (keys : list string)
    : option string :=
  List.find (fun key => match m !! key with Some _ => false | None => true end)
    keys.

(** The calls of the reclaimer. *)
Definition is_reclaim_call (c : Ec2.Call) : bool :=
  match c with
  | Ec2.TerminateInstances _ | Ec2.WaitInstanceTerminated _
  | Ec2.Sleep _ | Ec2.DeleteSecurityGroup _ => true
  | _ => false
  end.

(** The calls that change a security group. *)
Definition is_group_change (c : Ec2.Call) : bool :=
  match c with
  | Ec2.CreateSecurityGroup _ _ _ | Ec2.AuthorizeSecurityGroupIngress _ _
  | Ec2.DeleteSecurityGroup _ => true
  | _ => false
  end.

(** The calls about instances. *)
Definition is_instance_call (c : Ec2.Call) : bool :=
  match c with
  | Ec2.RunInstances _ | Ec2.WaitInstanceRunning _ | Ec2.DescribeInstances _
  | Ec2.TerminateInstances _ | Ec2.WaitInstanceTerminated _ => true
  | _ => false
  end.

(** An outcome that is an uncaught [IndexError]. *)
Definition raises_IndexError {A : Type} (o : outcome A) : bool :=
  match o with
  | Raise IndexError => true
  | _ => false
  end.

(** A computation that makes no call satisfying [p]. *)
Definition adds_no_call {W A : Type} (p : Ec2.Call -> bool) (m : M W A) : Prop :=
  forall st : State W,
    count_calls p (calls (m st).2) = count_calls p (calls st).

(** A computation whose every [sys.exit] has the code 1. *)
Definition exits_with_1 {W A : Type} (m : M W A) : Prop :=
  forall (st : State W) (code : Z),
    (m st).1 = Raise (SystemExit code) -> code = 1.

(** A computation that lets no [ClientError] out. *)
Definition handles_client_errors {W A : Type} (m : M W A) : Prop :=
  forall (st : State W) (e : string), (m st).1 <> Raise (ClientError e).

(** Two more ways to vary a scripted account. *)
Definition with_create (r : Ec2.reply string) (s : Scripted.Scenario)
    : Scripted.Scenario :=
  {| Scripted.on_describe_vpcs := Scripted.on_describe_vpcs s;
     Scripted.on_describe_security_groups := Scripted.on_describe_security_groups s;
     Scripted.on_create_security_group := r;
     Scripted.on_authorize := Scripted.on_authorize s;
     Scripted.on_run_instances := Scripted.on_run_instances s;
     Scripted.on_wait_running := Scripted.on_wait_running s;
     Scripted.on_describe_instances := Scripted.on_describe_instances s;
     Scripted.on_terminate := Scripted.on_terminate s;
     Scripted.on_wait_terminated := Scripted.on_wait_terminated s;
     Scripted.on_delete := Scripted.on_delete s |}.

Definition with_waits (running terminated : Ec2.reply unit)
    (s : Scripted.Scenario) : Scripted.Scenario :=
  {| Scripted.on_describe_vpcs := Scripted.on_describe_vpcs s;
     Scripted.on_describe_security_groups := Scripted.on_describe_security_groups s;
     Scripted.on_create_security_group := Scripted.on_create_security_group s;
     Scripted.on_authorize := Scripted.on_authorize s;
     Scripted.on_run_instances := Scripted.on_run_instances s;
     Scripted.on_wait_running := running;
     Scripted.on_describe_instances := Scripted.on_describe_instances s;
     Scripted.on_terminate := Scripted.on_terminate s;
     Scripted.on_wait_terminated := terminated;
     Scripted.on_delete := Scripted.on_delete s |}.

(** * Properties of the script *)

(** Unfolds the monad and the script down to the client operations. *)
Ltac run_script :=
  unfold run_main, main, load_config, default_vpc, create_security_group,
    provision_ec2_instance, cleanup_resources,
    bind, try_except_ClientError, invoke, wait, act, print, index, getitem,
    sys_exit, raise, ret, log;
  cbn.

(** ** Runs only append *)

Create HintDb appends discriminated.

Lemma followed_by_initial {W : Type} (st : State W) :
  followed_by st (initial (world st)) = st.
Proof.
  destruct st as [w cs out]. unfold followed_by, initial. cbn.
  rewrite !app_nil_r. reflexivity.
Qed.

Lemma followed_by_assoc {W : Type} (st st1 st2 : State W) :
  followed_by (followed_by st st1) st2 = followed_by st (followed_by st1 st2).
Proof. unfold followed_by. cbn. rewrite !app_assoc. reflexivity. Qed.

Lemma appends_ret {W A : Type} (a : A) : appends (@ret W A a).
Proof. intros st. unfold ret. cbn. rewrite followed_by_initial. reflexivity. Qed.

Lemma appends_raise {W A : Type} (e : exn) : appends (@raise W A e).
Proof. intros st. unfold raise. cbn. rewrite followed_by_initial. reflexivity. Qed.

Lemma appends_sys_exit {W A : Type} (code : Z) : appends (@sys_exit W A code).
Proof. apply appends_raise. Qed.

Lemma appends_print {W : Type} (line : string) : appends (@print W line).
Proof.
  intros [w cs out]. unfold print, followed_by. cbn.
  rewrite app_nil_r. reflexivity.
Qed.

Lemma appends_invoke {W A : Type} (c : Ec2.Call) (op : W -> Ec2.reply A * W) :
  appends (invoke c op).
Proof.
  intros [w cs out]. unfold invoke, followed_by, log. cbn.
  destruct (op w) as [[a | msg] w']; cbn; rewrite app_nil_r; reflexivity.
Qed.

Lemma appends_wait {W : Type} (c : Ec2.Call) (op : W -> Ec2.reply unit * W) :
  appends (wait c op).
Proof.
  intros [w cs out]. unfold wait, followed_by, log. cbn.
  destruct (op w) as [[a | msg] w']; cbn; rewrite app_nil_r; reflexivity.
Qed.

Lemma appends_act {W : Type} (c : Ec2.Call) : appends (@act W c).
Proof.
  intros [w cs out]. unfold act, followed_by, log. cbn.
  rewrite app_nil_r. reflexivity.
Qed.

Lemma appends_getitem {W : Type} (config : Document) (key : string) :
  appends (@getitem W config key).
Proof.
  unfold getitem. destruct config as [m | v].
  - destruct (m !! key); [apply appends_ret | apply appends_raise].
  - apply appends_raise.
Qed.

Lemma appends_index {W A : Type} (xs : list A) (i : nat) :
  appends (@index W A xs i).
Proof.
  unfold index. destruct (xs !! i); [apply appends_ret | apply appends_raise].
Qed.

Lemma appends_bind {W A B : Type} (m : M W A) (k : A -> M W B) :
  appends m -> (forall a, appends (k a)) -> appends (bind m k).
Proof.
  intros Hm Hk st. unfold bind. rewrite (Hm st).
  destruct (m (initial (world st))) as [[a | e] st1]; cbn.
  - rewrite (Hk a (followed_by st st1)). cbn.
    rewrite (Hk a st1). cbn. rewrite followed_by_assoc. reflexivity.
  - reflexivity.
Qed.

Lemma appends_try {W A : Type} (body : M W A) (handler : string -> M W A) :
  appends body -> (forall e, appends (handler e)) ->
  appends (try_except_ClientError body handler).
Proof.
  intros Hbody Hhandler st. unfold try_except_ClientError. rewrite (Hbody st).
  destruct (body (initial (world st))) as [[a | []] st1]; cbn; try reflexivity.
  rewrite (Hhandler msg (followed_by st st1)). cbn.
  rewrite (Hhandler msg st1). cbn. rewrite followed_by_assoc. reflexivity.
Qed.

Lemma appends_if {W A : Type} (b : bool) (m1 m2 : M W A) :
  appends m1 -> appends m2 -> appends (if b then m1 else m2).
Proof. destruct b; trivial. Qed.

#[local] Hint Resolve appends_ret appends_raise appends_sys_exit appends_print
  appends_invoke appends_wait appends_act appends_getitem appends_index
  appends_bind appends_try appends_if : appends.

Lemma appends_summary_loop {W : Type} (config : Document) (sg_id : string)
    (public_ips : list string) (instance_ids : list string) (i : nat) :
  appends (@summary_loop W config sg_id public_ips i instance_ids).
Proof.
  revert i. induction instance_ids as [| instance_id rest IH]; intros i; cbn.
  - apply appends_ret.
  - auto 20 with appends.
Qed.

#[local] Hint Resolve appends_summary_loop : appends.

Lemma appends_create_security_group {W : Type} (c : Ec2.Client W)
    (vpc_id : string) (sg_name sg_description : yval) :
  appends (create_security_group c vpc_id sg_name sg_description).
Proof. unfold create_security_group. auto 30 with appends. Qed.

Lemma appends_provision_ec2_instance {W : Type} (host : Host)
    (c : Ec2.Client W) (config : Document) (sg_id : string) :
  appends (provision_ec2_instance host c config sg_id).
Proof. unfold provision_ec2_instance. auto 40 with appends. Qed.

Lemma appends_cleanup_resources {W : Type} (c : Ec2.Client W)
    (instance_ids : list string) (sg_id : string) :
  appends (cleanup_resources c instance_ids sg_id).
Proof. unfold cleanup_resources. auto 30 with appends. Qed.

Lemma appends_default_vpc {W : Type} (c : Ec2.Client W) :
  appends (default_vpc c).
Proof. unfold default_vpc. auto 30 with appends. Qed.

Lemma appends_load_config {W : Type} (host : Host) (config_path : string) :
  appends (@load_config W host config_path).
Proof.
  unfold load_config. destruct (open_read host config_path) as [file |].
  - destruct (yaml_safe_load host file); auto with appends.
  - auto with appends.
Qed.

#[local] Hint Resolve appends_create_security_group
  appends_provision_ec2_instance appends_default_vpc appends_load_config
  : appends.

Lemma appends_main {W : Type} (host : Host) (c : Ec2.Client W) :
  appends (main host c).
Proof. unfold main. auto 40 with appends. Qed.

(** The end-to-end scenario: a fresh account, one instance asked for.  One
    security group is created with its two ingress rules, one instance is
    launched and waited for, and the process ends with status 0. *)
Example end_to_end_scenario :
  let host := Scripted.host_with (DocMap (Scripted.config 1)) in
  let run := run_main host (Scripted.client Scripted.fresh_account) 0%nat in
  exit_status run.1 = 0 /\
  count_calls is_create_security_group (calls run.2) = 1%nat /\
  count_calls is_authorize_ingress (calls run.2) = 2%nat /\
  count_calls is_run_instances (calls run.2) = 1%nat /\
  In "Instance ID: i-001" (stdout run.2) /\
  In "Public IP: 203.0.113.7" (stdout run.2) /\
  In "Instance IDs: i-001" (stdout run.2).
Proof. cbv zeta. vm_compute. tauto. Qed.

(** ** The security group *)

(** C3. When the lookup by name finds the security group, the script makes
    that one call only: no group is created, no ingress rule is authorized,
    and the identifier of the group found first is returned as it is. *)
Theorem existing_security_group_is_reused
    {W : Type} (c : Ec2.Client W) (vpc_id : string)
    (sg_name sg_description : yval) (w w' : W)
    (found : Ec2.SecurityGroup) (others : list Ec2.SecurityGroup) :
  Ec2.describe_security_groups c [sg_name] w = (Ec2.Ok (found :: others), w') ->
  let run := create_security_group c vpc_id sg_name sg_description (initial w) in
  run.1 = Return (Ec2.GroupId found) /\
  calls run.2 = [answered (Ec2.DescribeSecurityGroups [sg_name])] /\
  count_calls is_authorize_ingress (calls run.2) = 0%nat /\
  count_calls is_create_security_group (calls run.2) = 0%nat /\
  world run.2 = w'.
Proof.
  intros Hfound. run_script. rewrite Hfound. cbn. repeat split.
Qed.

Lemma existing_security_group_is_reused_witness :
  let c := Scripted.client
             (Scripted.with_groups (Ec2.Ok [ {| Ec2.GroupId := "sg-0e9" |} ])
                Scripted.fresh_account) in
  let run := create_security_group c "vpc-0a1" (YStr "sg-test") (YStr "test")
               (initial 0%nat) in
  run.1 = Return "sg-0e9" /\
  calls run.2 = [answered (Ec2.DescribeSecurityGroups [YStr "sg-test"])] /\
  count_calls is_authorize_ingress (calls run.2) = 0%nat /\
  count_calls is_create_security_group (calls run.2) = 0%nat /\
  world run.2 = 1%nat.
Proof.
  intros c.
  apply (existing_security_group_is_reused c "vpc-0a1" (YStr "sg-test")
           (YStr "test") 0%nat 1%nat {| Ec2.GroupId := "sg-0e9" |} []).
  reflexivity.
Defined.

(** X23. When the lookup fails with a message that contains [DoesNotExist],
    the script asks once for a new group in the given VPC, whatever happens
    next; and when the creation and the two authorizations are granted, the
    calls are, in this order, the lookup, the creation, the ingress rule for
    TCP port 22 and the one for TCP port 80, both open to 0.0.0.0/0, and the
    identifier of the new group is returned. *)
Theorem missing_security_group_is_created
    {W : Type} (c : Ec2.Client W) (vpc_id : string)
    (sg_name sg_description : yval) (w w1 : W) (e : string) :
  Ec2.describe_security_groups c [sg_name] w = (Ec2.Fails e, w1) ->
  str_in "DoesNotExist" e = true ->
  let run := create_security_group c vpc_id sg_name sg_description (initial w) in
  count_calls is_create_security_group (calls run.2) = 1%nat /\
  (exists status,
     calls run.2 !! 1%nat =
       Some {| ev_call := Ec2.CreateSecurityGroup sg_name sg_description vpc_id;
               ev_error := status |}) /\
  forall (sg_id : string) (w2 w3 w4 : W),
    Ec2.create_security_group c sg_name sg_description vpc_id w1
      = (Ec2.Ok sg_id, w2) ->
    Ec2.authorize_security_group_ingress c sg_id (ingress_rule 22) w2
      = (Ec2.Ok tt, w3) ->
    Ec2.authorize_security_group_ingress c sg_id (ingress_rule 80) w3
      = (Ec2.Ok tt, w4) ->
    run.1 = Return sg_id /\
    calls run.2 =
      [ refused (Ec2.DescribeSecurityGroups [sg_name]) e;
        answered (Ec2.CreateSecurityGroup sg_name sg_description vpc_id);
        answered (Ec2.AuthorizeSecurityGroupIngress sg_id (ingress_rule 22));
        answered (Ec2.AuthorizeSecurityGroupIngress sg_id (ingress_rule 80)) ] /\
    count_calls is_authorize_ingress (calls run.2) = 2%nat /\
    world run.2 = w4.
Proof.
  intros Hlookup Hnotfound. run_script. rewrite Hlookup. cbn.
  rewrite Hnotfound. cbn.
  destruct (Ec2.create_security_group c sg_name sg_description vpc_id w1)
    as [[sg_id | e1] w2] eqn:Hcreate; cbn.
  - unfold ingress_rule.
    destruct (Ec2.authorize_security_group_ingress c sg_id _ w2)
      as [[[] | e2] w3] eqn:Hssh; cbn.
    + destruct (Ec2.authorize_security_group_ingress c sg_id _ w3)
        as [[[] | e3] w4] eqn:Hhttp; cbn.
      * split; [reflexivity | split; [eexists; reflexivity |]].
        intros sg_id' w2' w3' w4' [= -> ->] Hssh' Hhttp'.
        rewrite Hssh in Hssh'. injection Hssh' as ->.
        rewrite Hhttp in Hhttp'. injection Hhttp' as ->.
        repeat split.
      * split; [reflexivity | split; [eexists; reflexivity |]].
        intros sg_id' w2' w3' w4' [= -> ->] Hssh' Hhttp'.
        rewrite Hssh in Hssh'. injection Hssh' as ->.
        rewrite Hhttp in Hhttp'. discriminate.
    + split; [reflexivity | split; [eexists; reflexivity |]].
      intros sg_id' w2' w3' w4' [= -> ->] Hssh' Hhttp'.
      rewrite Hssh in Hssh'. discriminate.
  - split; [reflexivity | split; [eexists; reflexivity |]].
    intros sg_id' w2' w3' w4' [=].
Qed.

Lemma missing_security_group_is_created_witness :
  let c := Scripted.client Scripted.fresh_account in
  let run := create_security_group c "vpc-0a1" (YStr "sg-test") (YStr "test")
               (initial 0%nat) in
  run.1 = Return "sg-0f1" /\
  count_calls is_create_security_group (calls run.2) = 1%nat /\
  count_calls is_authorize_ingress (calls run.2) = 2%nat /\
  world run.2 = 4%nat.
Proof.
  intros c run.
  destruct (missing_security_group_is_created c "vpc-0a1" (YStr "sg-test")
              (YStr "test") 0%nat 1%nat
              "An error occurred (InvalidGroup.DoesNotExist) when calling the DescribeSecurityGroups operation"
              eq_refl eq_refl) as (Hone & _ & Hgranted).
  destruct (Hgranted "sg-0f1" 2%nat 3%nat 4%nat eq_refl eq_refl eq_refl)
    as (Hret & _ & Htwo & Hworld).
  exact (conj Hret (conj Hone (conj Htwo Hworld))).
Defined.

(** C4, at the failing input. The function takes a refused lookup for
    "not found" when its text contains [DoesNotExist] (line 32).  The reply
    of EC2 for a group that does not exist has the code
    [InvalidGroup.NotFound] and a text that says [does not exist]: it does
    not contain that word, so the function prints [Error describing
    security group] and ends with [sys.exit(1)], having created no group
    and authorized no rule; and so does the process. *)
Lemma not_found_reply_of_ec2_creates_nothing :
  let e := "An error occurred (InvalidGroup.NotFound) when calling the DescribeSecurityGroups operation: The security group 'sg-test' does not exist in default VPC 'vpc-0a1'" in
  let host := Scripted.host_with (DocMap (Scripted.config 1)) in
  let c := Scripted.client
             (Scripted.with_groups (Ec2.Fails e) Scripted.fresh_account) in
  let run := create_security_group c "vpc-0a1" (YStr "sg-test") (YStr "test")
               (initial 0%nat) in
  str_in "DoesNotExist" e = false /\
  run.1 = Raise (SystemExit 1) /\
  calls run.2 = [refused (Ec2.DescribeSecurityGroups [YStr "sg-test"]) e] /\
  count_calls is_create_security_group (calls run.2) = 0%nat /\
  count_calls is_authorize_ingress (calls run.2) = 0%nat /\
  last (stdout run.2) = Some ("Error describing security group: " +:+ e) /\
  exit_status (run_main host c 0%nat).1 = 1 /\
  count_calls is_create_security_group (calls (run_main host c 0%nat).2) = 0%nat.
Proof.
  cbv zeta. repeat split; vm_compute; reflexivity.
Qed.

(** ** The default VPC *)

(** C10. When the account answers with a non-empty list of default VPCs, the
    script takes the identifier of the first one, whatever follows it in the
    list: two answers with the same first element give the same result. *)
Theorem first_default_vpc_is_chosen
    {W : Type} (c : Ec2.Client W) (w w1 : W)
    (first : Ec2.Vpc) (others : list Ec2.Vpc) :
  Ec2.describe_vpcs c default_vpc_filters w = (Ec2.Ok (first :: others), w1) ->
  let run := default_vpc c (initial w) in
  run.1 = Return (Ec2.VpcId first) /\
  stdout run.2 = ["Using Default VPC ID: " +:+ Ec2.VpcId first] /\
  calls run.2 = [answered (Ec2.DescribeVpcs default_vpc_filters)] /\
  world run.2 = w1 /\
  forall (c' : Ec2.Client W) (w' w1' : W) (others' : list Ec2.Vpc),
    Ec2.describe_vpcs c' default_vpc_filters w' = (Ec2.Ok (first :: others'), w1') ->
    (default_vpc c' (initial w')).1 = run.1.
Proof.
  intros Hvpcs. run_script. unfold default_vpc_filters in Hvpcs.
  rewrite Hvpcs. cbn. repeat split.
  intros c' w' w1' others' Hvpcs'. unfold default_vpc_filters in Hvpcs'.
  rewrite Hvpcs'. reflexivity.
Qed.

Lemma first_default_vpc_is_chosen_witness :
  let two := [ {| Ec2.VpcId := "vpc-0a1" |}; {| Ec2.VpcId := "vpc-0b2" |} ] in
  let c := Scripted.client (Scripted.with_vpcs (Ec2.Ok two) Scripted.fresh_account) in
  (default_vpc c (initial 0%nat)).1 = Return "vpc-0a1".
Proof.
  intros two c.
  exact (proj1 (first_default_vpc_is_chosen c 0%nat 1%nat
                  {| Ec2.VpcId := "vpc-0a1" |} [ {| Ec2.VpcId := "vpc-0b2" |} ]
                  eq_refl)).
Defined.

(** C5. When the account reports no default VPC, the process ends with exit
    status 1 and has made no call about a security group or an instance;
    once the configuration is loaded and names a region, the end is the
    [sys.exit(1)] that follows the message about the missing default VPC. *)
Theorem no_default_vpc_is_fatal
    {W : Type} (host : Host) (c : Ec2.Client W) (w w1 : W) :
  Ec2.describe_vpcs c default_vpc_filters w = (Ec2.Ok [], w1) ->
  let run := run_main host c w in
  exit_status run.1 = 1 /\
  count_calls is_group_or_instance_call (calls run.2) = 0%nat /\
  forall (file : string) (m : gmap string yval) (region : yval),
    open_read host "config.yaml" = Some file ->
    yaml_safe_load host file = inr (DocMap m) ->
    m !! "aws_region" = Some region ->
    run.1 = Raise (SystemExit 1) /\
    calls run.2 = [ answered (Ec2.NewClient region);
                    answered (Ec2.DescribeVpcs default_vpc_filters) ] /\
    stdout run.2 =
      [ "Error: No default VPC found. Please specify a VPC ID in config or create a default VPC." ].
Proof.
  intros Hvpcs. unfold default_vpc_filters in Hvpcs. run_script.
  destruct (open_read host "config.yaml") as [file |] eqn:Hopen; cbn.
  - destruct (yaml_safe_load host file) as [err | [m | v]] eqn:Hyaml; cbn.
    + split; [reflexivity | split; [reflexivity |]].
      intros file' m' region' [= <-]. congruence.
    + destruct (m !! "aws_region") as [region |] eqn:Hregion; cbn.
      * rewrite Hvpcs. cbn. split; [reflexivity | split; [reflexivity |]].
        intros file' m' region' [= <-] Hyaml' Hregion'.
        rewrite Hyaml in Hyaml'. injection Hyaml' as <-.
        rewrite Hregion in Hregion'. injection Hregion' as <-.
        repeat split.
      * split; [reflexivity | split; [reflexivity |]].
        intros file' m' region' [= <-] Hyaml' Hregion'.
        rewrite Hyaml in Hyaml'. injection Hyaml' as <-. congruence.
    + split; [reflexivity | split; [reflexivity |]].
      intros file' m' region' [= <-]. congruence.
  - split; [reflexivity | split; [reflexivity |]]. intros ? ? ? [=].
Qed.

Lemma no_default_vpc_is_fatal_witness :
  let host := Scripted.host_with (DocMap (Scripted.config 1)) in
  let c := Scripted.client (Scripted.with_vpcs (Ec2.Ok []) Scripted.fresh_account) in
  let run := run_main host c 0%nat in
  run.1 = Raise (SystemExit 1) /\
  exit_status run.1 = 1 /\
  count_calls is_group_or_instance_call (calls run.2) = 0%nat.
Proof.
  intros host c run.
  destruct (no_default_vpc_is_fatal host c 0%nat 1%nat eq_refl)
    as (Hstatus & Hnone & Hloaded).
  destruct (Hloaded "..." (Scripted.config 1) (YStr "us-east-1")
              eq_refl eq_refl eq_refl) as (Hexit & _).
  exact (conj Hexit (conj Hstatus Hnone)).
Defined.

(** C9. When a new security group has been created and the authorization of
    one of its two ingress rules is refused, the process ends with
    [sys.exit(1)]: the group stays (no call deletes it) and no instance is
    launched. *)
Theorem refused_ingress_rule_is_fatal_without_rollback
    {W : Type} (host : Host) (c : Ec2.Client W)
    (file : string) (m : gmap string yval)
    (region sg_name sg_description : yval)
    (w w1 w2 w3 : W) (first : Ec2.Vpc) (others : list Ec2.Vpc)
    (e sg_id : string) :
  open_read host "config.yaml" = Some file ->
  yaml_safe_load host file = inr (DocMap m) ->
  m !! "aws_region" = Some region ->
  m !! "security_group_name" = Some sg_name ->
  m !! "security_group_description" = Some sg_description ->
  Ec2.describe_vpcs c default_vpc_filters w = (Ec2.Ok (first :: others), w1) ->
  Ec2.describe_security_groups c [sg_name] w1 = (Ec2.Fails e, w2) ->
  str_in "DoesNotExist" e = true ->
  Ec2.create_security_group c sg_name sg_description (Ec2.VpcId first) w2
    = (Ec2.Ok sg_id, w3) ->
  ((exists e1 w4,
      Ec2.authorize_security_group_ingress c sg_id (ingress_rule 22) w3
        = (Ec2.Fails e1, w4)) \/
   (exists w4 e2 w5,
      Ec2.authorize_security_group_ingress c sg_id (ingress_rule 22) w3
        = (Ec2.Ok tt, w4) /\
      Ec2.authorize_security_group_ingress c sg_id (ingress_rule 80) w4
        = (Ec2.Fails e2, w5))) ->
  let run := run_main host c w in
  run.1 = Raise (SystemExit 1) /\
  exit_status run.1 = 1 /\
  count_calls is_create_security_group (calls run.2) = 1%nat /\
  count_calls is_delete_security_group (calls run.2) = 0%nat /\
  count_calls is_run_instances (calls run.2) = 0%nat /\
  exists e', last (stdout run.2)
             = Some ("Error creating security group or adding rules: " +:+ e').
Proof.
  intros Hopen Hyaml Hregion Hname Hdescription Hvpcs Hlookup Hnotfound
    Hcreate Hrefused.
  unfold default_vpc_filters in Hvpcs. unfold ingress_rule in Hrefused.
  run_script. rewrite Hopen. cbn. rewrite Hyaml. cbn. rewrite Hregion. cbn.
  rewrite Hvpcs. cbn. rewrite Hname. cbn. rewrite Hdescription. cbn.
  rewrite Hlookup. cbn. rewrite Hnotfound. cbn. rewrite Hcreate. cbn.
  destruct Hrefused as [(e1 & w4 & Hssh) | (w4 & e2 & w5 & Hssh & Hhttp)].
  - rewrite Hssh. cbn. repeat split. eexists. reflexivity.
  - rewrite Hssh. cbn. rewrite Hhttp. cbn. repeat split. eexists. reflexivity.
Qed.

Lemma refused_ingress_rule_is_fatal_without_rollback_witness :
  let host := Scripted.host_with (DocMap (Scripted.config 1)) in
  let c := Scripted.client
             (Scripted.with_authorize
                (fun port => if (port =? 80)%Z
                             then Ec2.Fails "An error occurred (RulesPerSecurityGroupLimitExceeded) when calling the AuthorizeSecurityGroupIngress operation"
                             else Ec2.Ok tt)
                Scripted.fresh_account) in
  let run := run_main host c 0%nat in
  run.1 = Raise (SystemExit 1) /\
  exit_status run.1 = 1 /\
  count_calls is_create_security_group (calls run.2) = 1%nat /\
  count_calls is_delete_security_group (calls run.2) = 0%nat /\
  count_calls is_run_instances (calls run.2) = 0%nat /\
  exists e', last (stdout run.2)
             = Some ("Error creating security group or adding rules: " +:+ e').
Proof.
  intros host c.
  apply (refused_ingress_rule_is_fatal_without_rollback host c "..."
           (Scripted.config 1) (YStr "us-east-1") (YStr "sg-test") (YStr "test")
           0%nat 1%nat 2%nat 3%nat {| Ec2.VpcId := "vpc-0a1" |} []
           "An error occurred (InvalidGroup.DoesNotExist) when calling the DescribeSecurityGroups operation"
           "sg-0f1");
    try reflexivity.
  right. exists 4%nat. eexists. exists 5%nat. split; reflexivity.
Defined.

(** ** The reclaimer *)

Ltac in_log H :=
  cbn in H;
  repeat match type of H with
         | _ \/ _ => destruct H as [H | H]
         | False => destruct H
         | _ = _ => first [discriminate H | injection H as <-]
         end.

(** X24. In [cleanup_resources] a refused termination is printed and the
    function goes on to the deletion of the security group (when it has an
    identifier); a refused deletion is printed and the function returns;
    and the function never calls [sys.exit]. *)
Theorem refused_reclaim_calls_are_reported
    {W : Type} (c : Ec2.Client W) (instance_ids : list string)
    (sg_id : string) (w : W) :
  let run := cleanup_resources c instance_ids sg_id (initial w) in
  (forall e,
     In (refused (Ec2.TerminateInstances instance_ids) e) (calls run.2) ->
     In ("Error terminating instance(s): " +:+ e) (stdout run.2) /\
     (nonempty_str sg_id = true ->
      exists status,
        last (calls run.2)
          = Some {| ev_call := Ec2.DeleteSecurityGroup sg_id;
                    ev_error := status |})) /\
  (forall e,
     In (refused (Ec2.DeleteSecurityGroup sg_id) e) (calls run.2) ->
     run.1 = Return tt /\
     In ("Error deleting security group '" +:+ sg_id +:+ "': " +:+ e)
       (stdout run.2)) /\
  (forall code, run.1 <> Raise (SystemExit code)).
Proof.
  run_script.
  destruct instance_ids as [| instance_id rest]; cbn;
    [| destruct (Ec2.terminate_instances c (instance_id :: rest) w)
         as [[[] | e1] w1]; cbn;
       [destruct (Ec2.wait_instance_terminated c (instance_id :: rest) w1)
          as [[[] | e2] w2]; cbn |] ];
    destruct sg_id as [| a sg_id]; cbn;
    try (match goal with
         | |- context [Ec2.delete_security_group c ?g ?w0] =>
             destruct (Ec2.delete_security_group c g w0) as [[[] | e3] w3]; cbn
         end);
    (split; [| split]);
    try (intros e H; in_log H; fail);
    try (intros code; discriminate).
  all: intros e H; in_log H.
  all: repeat split; (try discriminate); cbn; eauto 10.
Qed.

Lemma refused_reclaim_calls_are_reported_witness :
  let denied := "An error occurred (UnauthorizedOperation) when calling the TerminateInstances operation" in
  let in_use := "An error occurred (DependencyViolation) when calling the DeleteSecurityGroup operation" in
  let c := Scripted.client
             (Scripted.with_reclaim (Ec2.Fails denied) (Ec2.Fails in_use)
                Scripted.fresh_account) in
  let run := cleanup_resources c ["i-001"] "sg-0f1" (initial 0%nat) in
  run.1 = Return tt /\
  In ("Error terminating instance(s): " +:+ denied) (stdout run.2) /\
  In ("Error deleting security group 'sg-0f1': " +:+ in_use) (stdout run.2) /\
  calls run.2 = [ refused (Ec2.TerminateInstances ["i-001"]) denied;
                  answered (Ec2.Sleep 10);
                  refused (Ec2.DeleteSecurityGroup "sg-0f1") in_use ].
Proof.
  intros denied in_use c run.
  destruct (refused_reclaim_calls_are_reported c ["i-001"] "sg-0f1" 0%nat)
    as (Hterminate & Hdelete & _).
  destruct (Hterminate denied (or_introl eq_refl)) as (Hprinted & _).
  destruct (Hdelete in_use (or_intror (or_intror (or_introl eq_refl))))
    as (Hreturn & Hprinted').
  exact (conj Hreturn (conj Hprinted (conj Hprinted' eq_refl))).
Defined.

(** C7, at the failing input. The wait for the terminated state is in the
    same [try] as the termination (lines 153-159), under the handler that
    prints [Error terminating instance(s)]; but a failed wait raises
    [WaiterError], which that handler does not catch.  The termination is
    accepted, the wait fails: nothing is reported, the deletion of the
    security group is not attempted, and the exception ends the process
    with status 1. *)
Lemma failed_wait_ends_the_reclaim :
  let msg := "Waiter InstanceTerminated failed: Max attempts exceeded" in
  let c := Scripted.client
             (with_waits (Ec2.Ok tt) (Ec2.Fails msg) Scripted.fresh_account) in
  let run := cleanup_resources c ["i-001"] "sg-0f1" (initial 0%nat) in
  run.1 = Raise (WaiterError msg) /\
  exit_status run.1 = 1 /\
  calls run.2
    = [ answered (Ec2.TerminateInstances ["i-001"]);
        refused (Ec2.WaitInstanceTerminated ["i-001"]) msg ] /\
  count_calls is_delete_security_group (calls run.2) = 0%nat /\
  stdout run.2 = [newline +:+ "Terminating instance(s): i-001..."].
Proof.
  cbv zeta. repeat split; vm_compute; reflexivity.
Qed.

(** ** The configuration *)

Lemma validated_is_mapping (config : Document) :
  validated config ->
  exists m, config = DocMap m /\
            forall key, In key required_fields -> is_Some (m !! key).
Proof.
  unfold validated, missing_fields. intros Hnone.
  destruct config as [m | v]; [| discriminate Hnone].
  exists m. split; [reflexivity |]. intros key Hkey.
  destruct (m !! key) as [v |] eqn:Hlookup; [eauto |].
  assert (Hin : In key []).
  { rewrite <- Hnone. apply List.filter_In. split; [exact Hkey |].
    cbn. rewrite Hlookup. reflexivity. }
  destruct Hin.
Qed.

Lemma getitem_validated {W : Type} (config : Document) (key : string)
    (st : State W) :
  validated config -> In key required_fields ->
  getitem config key st = (Return (field config key), st).
Proof.
  intros Hvalid Hkey.
  destruct (validated_is_mapping config Hvalid) as (m & -> & Hall).
  destruct (Hall key Hkey) as [v Hv].
  unfold getitem, field. rewrite Hv. reflexivity.
Qed.

(** Rewrites the next [config[key]] of a validated configuration. *)
Ltac read_field Hvalid :=
  rewrite (getitem_validated _ _ _ Hvalid) by (cbn; tauto); cbn.

(** C2, as the code has it. [load_config] checks no field and has no error
    for a missing one: when the file is there and parses, it returns the
    document the parser produced as it is, whichever of the seven fields
    are absent from it, and prints nothing. *)
Theorem load_config_checks_no_field
    {W : Type} (host : Host) (config_path : string) (w : W)
    (file : string) (config : Document) :
  open_read host config_path = Some file ->
  yaml_safe_load host file = inr config ->
  let run := load_config host config_path (initial w) in
  run.1 = Return config /\
  stdout run.2 = [] /\
  calls run.2 = [] /\
  world run.2 = w.
Proof.
  intros Hopen Hyaml. run_script. rewrite Hopen. cbn. rewrite Hyaml. cbn.
  repeat split.
Qed.

Lemma load_config_checks_no_field_witness :
  let doc := DocMap (delete "ami_id" (delete "instance_count" (Scripted.config 1))) in
  let run := load_config (Scripted.host_with doc) "config.yaml" (initial 0%nat) in
  missing_fields doc = ["ami_id"; "instance_count"] /\
  run.1 = Return doc /\
  stdout run.2 = [].
Proof.
  intros doc.
  destruct (load_config_checks_no_field (Scripted.host_with doc) "config.yaml"
              0%nat "..." doc eq_refl eq_refl)
    as (Hreturn & Hprinted & _).
  split; [vm_compute; reflexivity |].
  exact (conj Hreturn Hprinted).
Defined.

(** C2, counterexample: a document without [ami_id] is loaded like any
    other.  No error names the missing field before the run reaches the
    launch, where the subscript raises [KeyError]; by then the security
    group has been created. *)
Lemma load_config_accepts_a_missing_field :
  let doc := DocMap (delete "ami_id" (Scripted.config 1)) in
  let host := Scripted.host_with doc in
  let c := Scripted.client Scripted.fresh_account in
  missing_fields doc = ["ami_id"] /\
  (load_config host "config.yaml" (initial 0%nat)).1 = Return doc /\
  (run_main host c 0%nat).1 = Raise (KeyError "ami_id") /\
  count_calls is_create_security_group (calls (run_main host c 0%nat).2) = 1%nat.
Proof.
  cbv zeta. split; [vm_compute; reflexivity |].
  split; [reflexivity |].
  split; vm_compute; reflexivity.
Qed.

(** ** The launch *)

(** [main] has no handler around the launch: once the configuration is
    loaded and the security group is there, what the launch raises ends the
    process. *)
Lemma main_ends_as_the_launch_raises
    {W : Type} (host : Host) (c : Ec2.Client W) (w : W)
    (file : string) (config : Document) (vpc_id sg_id : string)
    (st1 st2 st3 : State W) (e : exn) :
  open_read host "config.yaml" = Some file ->
  yaml_safe_load host file = inr config ->
  validated config ->
  default_vpc c
    {| world := w;
       calls := [answered (Ec2.NewClient (field config "aws_region"))];
       stdout := [] |}
    = (Return vpc_id, st1) ->
  create_security_group c vpc_id (field config "security_group_name")
    (field config "security_group_description") st1
    = (Return sg_id, st2) ->
  provision_ec2_instance host c config sg_id st2 = (Raise e, st3) ->
  run_main host c w = (Raise e, st3).
Proof.
  intros Hopen Hyaml Hvalid Hvpc Hgroup Hlaunch.
  unfold run_main, main, load_config, bind, act, ret.
  rewrite Hopen, Hyaml.
  rewrite (getitem_validated _ _ _ Hvalid) by (cbn; tauto).
  unfold log, initial.
  cbn -[default_vpc create_security_group provision_ec2_instance getitem].
  rewrite Hvpc.
  do 2 rewrite (getitem_validated _ _ _ Hvalid) by (cbn; tauto).
  rewrite Hgroup, Hlaunch. reflexivity.
Qed.

(** X25. A refused launch ends with [sys.exit(1)] after
    the error line; the key-pair hint follows when the text of the error
    contains [InvalidKeyPair.NotFound], the image hint when it contains
    [InvalidAMIID.NotFound] or [InvalidAMIID.Malformed]: one line for each
    sub-case the text matches, so one line when it matches one of them and
    two when it matches both.  The outcome is the same in all cases. *)
Theorem refused_launch_is_fatal
    {W : Type} (host : Host) (c : Ec2.Client W) (config : Document)
    (sg_id : string) (w w1 : W) (e : string) :
  validated config ->
  Ec2.run_instances c (launch_request host config sg_id) w = (Ec2.Fails e, w1) ->
  let run := provision_ec2_instance host c config sg_id (initial w) in
  run.1 = Raise (SystemExit 1) /\
  exit_status run.1 = 1 /\
  calls run.2 = [refused (Ec2.RunInstances (launch_request host config sg_id)) e] /\
  stdout run.2
    = ([attempt_line config; "Error launching EC2 instance(s): " +:+ e]
       ++ hint_lines e)%list /\
  length (hint_lines e)
    = ((if invalid_key_pair e then 1 else 0)
       + (if invalid_image e then 1 else 0))%nat.
Proof.
  intros Hvalid Hlaunch. unfold launch_request in Hlaunch.
  unfold provision_ec2_instance, bind, try_except_ClientError, invoke,
    print, sys_exit, raise, ret, log. cbn.
  do 5 read_field Hvalid. rewrite Hlaunch. cbn.
  unfold hint_lines, invalid_key_pair, invalid_image, attempt_line,
    launch_request.
  destruct (str_in "InvalidKeyPair.NotFound" e);
    destruct (str_in "InvalidAMIID.NotFound" e);
    destruct (str_in "InvalidAMIID.Malformed" e); cbn; repeat split.
Qed.

Lemma refused_launch_is_fatal_witness :
  let e := "An error occurred (InvalidAMIID.NotFound) when calling the RunInstances operation: The image id '[ami-123]' does not exist" in
  let host := Scripted.host_with (DocMap (Scripted.config 1)) in
  let c := Scripted.client
             (Scripted.with_launch (fun _ => Ec2.Fails e) (Ec2.Ok [])
                Scripted.fresh_account) in
  let run := provision_ec2_instance host c (DocMap (Scripted.config 1))
               "sg-0f1" (initial 0%nat) in
  run.1 = Raise (SystemExit 1) /\
  stdout run.2
    = [ attempt_line (DocMap (Scripted.config 1));
        "Error launching EC2 instance(s): " +:+ e;
        image_hint ].
Proof.
  intros e host c run.
  destruct (refused_launch_is_fatal host c (DocMap (Scripted.config 1))
              "sg-0f1" 0%nat 1%nat e eq_refl eq_refl)
    as (Hexit & _ & _ & Hprinted & _).
  exact (conj Hexit Hprinted).
Defined.

(** C8, at the failing input. The second test (line 142, under the comment
    that it is for an AMI not found) looks for its words anywhere in the
    text of the error, and the text quotes the name of the key pair: for a
    missing key pair named [InvalidAMIID.NotFound] the function prints the
    hint about the key pair and then the hint about the image, two hint
    lines for one error, before it ends with [sys.exit(1)]. *)
Lemma refused_launch_may_print_two_hints :
  let e := "An error occurred (InvalidKeyPair.NotFound) when calling the RunInstances operation: The key pair 'InvalidAMIID.NotFound' does not exist" in
  let config := DocMap (<["key_pair_name" := YStr "InvalidAMIID.NotFound"]>
                          (Scripted.config 1)) in
  let host := Scripted.host_with config in
  let c := Scripted.client
             (Scripted.with_launch (fun _ => Ec2.Fails e) (Ec2.Ok [])
                Scripted.fresh_account) in
  let run := provision_ec2_instance host c config "sg-0f1" (initial 0%nat) in
  invalid_key_pair e = true /\
  run.1 = Raise (SystemExit 1) /\
  stdout run.2
    = [ attempt_line config;
        "Error launching EC2 instance(s): " +:+ e;
        key_pair_hint;
        image_hint ] /\
  length (hint_lines e) = 2%nat.
Proof.
  cbv zeta. repeat split; vm_compute; reflexivity.
Qed.

(** ** The summary *)

Lemma collect_inner (acc : list string) (instances : list Ec2.Instance) :
  foldl (fun (public_ips : list string) instance =>
           match Ec2.PublicIpAddress instance with
           | Some ip => public_ips ++ [ip]
           | None => public_ips
           end) acc instances
  = acc ++ omap Ec2.PublicIpAddress instances.
Proof.
  revert acc. induction instances as [| i rest IH]; intros acc; cbn.
  - symmetry. apply app_nil_r.
  - rewrite IH. destruct (Ec2.PublicIpAddress i) as [ip |]; cbn.
    + rewrite <- app_assoc. reflexivity.
    + reflexivity.
Qed.

Lemma collect_outer (acc : list string) (reservations : list Ec2.Reservation) :
  foldl (fun (public_ips : list string) reservation =>
           foldl (fun (public_ips : list string) instance =>
                    match Ec2.PublicIpAddress instance with
                    | Some ip => public_ips ++ [ip]
                    | None => public_ips
                    end) public_ips (Ec2.Instances reservation))
    acc reservations
  = acc ++ omap Ec2.PublicIpAddress (instances_of reservations).
Proof.
  unfold instances_of. revert acc.
  induction reservations as [| r rest IH]; intros acc; cbn.
  - symmetry. apply app_nil_r.
  - rewrite IH, collect_inner, omap_app, app_assoc. reflexivity.
Qed.

Lemma collect_public_ips_spec (reservations : list Ec2.Reservation) :
  collect_public_ips reservations
  = omap Ec2.PublicIpAddress (instances_of reservations).
Proof. unfold collect_public_ips. apply collect_outer. Qed.

Lemma collect_public_ips_length (reservations : list Ec2.Reservation) :
  length (collect_public_ips reservations) = addressed reservations.
Proof.
  rewrite collect_public_ips_spec. unfold addressed.
  induction (instances_of reservations) as [| i rest IH]; cbn.
  - reflexivity.
  - unfold has_address at 1.
    destruct (Ec2.PublicIpAddress i); cbn; rewrite IH; reflexivity.
Qed.

(** The loop of the summary on a validated configuration: it ends, having
    printed the blocks of the instances, and touches nothing else. *)
Lemma summary_loop_validated {W : Type} (config : Document) (sg_id : string)
    (public_ips : list string) (instance_ids : list string) :
  validated config ->
  forall (i : nat) (st : State W),
    summary_loop config sg_id public_ips i instance_ids st
    = (Return tt,
       {| world := world st;
          calls := calls st;
          stdout := stdout st
                    ++ concat (imap (fun j => summary_block config sg_id
                                                public_ips (i + j))
                                 instance_ids) |}).
Proof.
  intros Hvalid.
  induction instance_ids as [| instance_id rest IH]; intros i st.
  - cbn. rewrite app_nil_r. destruct st; reflexivity.
  - cbn [summary_loop]. unfold bind, print, index, ret, raise.
    cbn -[Nat.ltb].
    destruct (i <? length public_ips)%nat eqn:Hi.
    + apply Nat.ltb_lt, lookup_lt_is_Some in Hi. destruct Hi as [ip Hip].
      rewrite Hip. cbn.
      do 4 read_field Hvalid. rewrite IH. cbn -[summary_block].
      f_equal. f_equal. rewrite <- !app_assoc. f_equal.
      unfold summary_block at 2. rewrite Nat.add_0_r, Hip. cbn.
      do 8 f_equal.
      apply imap_ext. intros j x _. unfold summary_block. cbn.
      rewrite Nat.add_succ_r. reflexivity.
    + apply Nat.ltb_ge, lookup_ge_None in Hi.
      do 4 read_field Hvalid. rewrite IH. cbn -[summary_block].
      f_equal. f_equal. rewrite <- !app_assoc. f_equal.
      unfold summary_block at 2. rewrite Nat.add_0_r, Hi. cbn.
      do 7 f_equal.
      apply imap_ext. intros j x _. unfold summary_block. cbn.
      rewrite Nat.add_succ_r. reflexivity.
Qed.

Lemma address_line_recognized (ip : string) :
  is_address_line ("Public IP: " +:+ ip) = true.
Proof. unfold is_address_line. cbn. destruct ip; reflexivity. Qed.

Lemma address_lines_of_block (config : Document) (sg_id : string)
    (public_ips : list string) (i : nat) (instance_id : string) :
  address_lines (summary_block config sg_id public_ips i instance_id)
  = if (i <? length public_ips)%nat then 1%nat else 0%nat.
Proof.
  unfold address_lines, summary_block.
  destruct (i <? length public_ips)%nat eqn:Hi.
  - apply Nat.ltb_lt, lookup_lt_is_Some in Hi. destruct Hi as [ip ->].
    cbn [app List.filter]. rewrite address_line_recognized. reflexivity.
  - apply Nat.ltb_ge, lookup_ge_None in Hi. rewrite Hi. reflexivity.
Qed.

(** The run of the launch when the three remote calls go through. *)
Lemma launch_goes_through
    {W : Type} (host : Host) (c : Ec2.Client W) (config : Document)
    (sg_id : string) (w w1 w2 w3 : W)
    (instances : list Ec2.Instance) (reservations : list Ec2.Reservation) :
  validated config ->
  let instance_ids := map Ec2.InstanceId instances in
  let public_ips := collect_public_ips reservations in
  Ec2.run_instances c (launch_request host config sg_id) w
    = (Ec2.Ok instances, w1) ->
  Ec2.wait_instance_running c instance_ids w1 = (Ec2.Ok tt, w2) ->
  Ec2.describe_instances c instance_ids w2 = (Ec2.Ok reservations, w3) ->
  provision_ec2_instance host c config sg_id (initial w)
  = (Return (instance_ids, public_ips),
     {| world := w3;
        calls := [ answered (Ec2.RunInstances (launch_request host config sg_id));
                   answered (Ec2.WaitInstanceRunning instance_ids);
                   answered (Ec2.DescribeInstances instance_ids) ];
        stdout := progress_lines config instance_ids
                  ++ concat (imap (summary_block config sg_id public_ips)
                               instance_ids) |}).
Proof.
  intros Hvalid instance_ids public_ips Hlaunch Hwait Hdescribe.
  unfold launch_request in Hlaunch.
  unfold provision_ec2_instance, bind, try_except_ClientError, invoke,
    wait, print, sys_exit, raise, ret, log. cbn.
  do 5 read_field Hvalid. rewrite Hlaunch. cbn.
  fold instance_ids. rewrite Hwait. cbn. rewrite Hdescribe. cbn.
  rewrite (summary_loop_validated _ _ _ _ Hvalid). reflexivity.
Qed.

(** C6. When the launch, the wait and the description of the instances go
    through, the function returns: the identifiers of all the launched
    instances, and the addresses of those the description gives one.  The
    summary has one block for each identifier, and the block at position
    [i] has an address line only while [i] is below the number of
    addresses; no subscript goes past the end of the address list. *)
Theorem summary_survives_missing_addresses
    {W : Type} (host : Host) (c : Ec2.Client W) (config : Document)
    (sg_id : string) (w w1 w2 w3 : W)
    (instances : list Ec2.Instance) (reservations : list Ec2.Reservation) :
  validated config ->
  let instance_ids := map Ec2.InstanceId instances in
  Ec2.run_instances c (launch_request host config sg_id) w
    = (Ec2.Ok instances, w1) ->
  Ec2.wait_instance_running c instance_ids w1 = (Ec2.Ok tt, w2) ->
  Ec2.describe_instances c instance_ids w2 = (Ec2.Ok reservations, w3) ->
  let run := provision_ec2_instance host c config sg_id (initial w) in
  let public_ips := collect_public_ips reservations in
  run.1 = Return (instance_ids, public_ips) /\
  length instance_ids = length instances /\
  length public_ips = addressed reservations /\
  stdout run.2
    = progress_lines config instance_ids
      ++ concat (imap (summary_block config sg_id public_ips) instance_ids) /\
  forall (i : nat) (instance_id : string),
    instance_ids !! i = Some instance_id ->
    address_lines (summary_block config sg_id public_ips i instance_id)
    = if (i <? addressed reservations)%nat then 1%nat else 0%nat.
Proof.
  intros Hvalid instance_ids Hlaunch Hwait Hdescribe run public_ips.
  assert (Hblocks : forall (i : nat) (instance_id : string),
             address_lines (summary_block config sg_id public_ips i instance_id)
             = if (i <? addressed reservations)%nat then 1%nat else 0%nat).
  { intros i instance_id. unfold public_ips.
    rewrite address_lines_of_block, collect_public_ips_length. reflexivity. }
  assert (Hrun := launch_goes_through host c config sg_id w w1 w2 w3
                    instances reservations Hvalid Hlaunch Hwait Hdescribe).
  fold instance_ids public_ips run in Hrun.
  rewrite Hrun. cbn [fst snd stdout].
  split; [reflexivity |].
  split; [apply length_map |].
  split; [apply collect_public_ips_length |].
  split; [reflexivity |].
  intros i instance_id _. apply Hblocks.
Qed.

Lemma summary_survives_missing_addresses_witness :
  let config := DocMap (Scripted.config 3) in
  let host := Scripted.host_with config in
  let described :=
    [ {| Ec2.Instances :=
           [ {| Ec2.InstanceId := "i-001";
                Ec2.PublicIpAddress := Some "203.0.113.7" |};
             {| Ec2.InstanceId := "i-002"; Ec2.PublicIpAddress := None |};
             {| Ec2.InstanceId := "i-003";
                Ec2.PublicIpAddress := Some "203.0.113.9" |} ] |} ] in
  let c := Scripted.client
             (Scripted.with_launch (Scripted.launch_with_capacity 3)
                (Ec2.Ok described) Scripted.fresh_account) in
  let run := provision_ec2_instance host c config "sg-0f1" (initial 0%nat) in
  run.1 = Return (["i-001"; "i-002"; "i-003"], ["203.0.113.7"; "203.0.113.9"]) /\
  address_lines
    (summary_block config "sg-0f1" ["203.0.113.7"; "203.0.113.9"] 2 "i-003")
  = 0%nat.
Proof.
  intros config host described c run.
  destruct (summary_survives_missing_addresses host c config "sg-0f1"
              0%nat 1%nat 2%nat 3%nat
              (map Scripted.instance_numbered (seq 0 3)) described
              eq_refl eq_refl eq_refl eq_refl)
    as (Hreturn & _ & _ & _ & Hblocks).
  exact (conj Hreturn (Hblocks 2%nat "i-003" eq_refl)).
Defined.

(** ** The size of the batch *)

Ltac enter_launch Hvalid :=
  unfold provision_ec2_instance, bind, try_except_ClientError, invoke,
    wait, print, sys_exit, raise, ret, log; cbn;
  do 5 read_field Hvalid.

Ltac hint_cases e :=
  destruct (str_in "InvalidKeyPair.NotFound" e);
  destruct (str_in "InvalidAMIID.NotFound" e);
  destruct (str_in "InvalidAMIID.Malformed" e); cbn.

(** C1, as the code has it. With a validated configuration whose
    [instance_count] is [N], the function calls [run_instances] once, first
    of all its calls, with [MaxCount] [N] and [MinCount] 1; and when it
    returns, the identifiers it returns are those of the instances in the
    answer to that call, one for each, however many the account started. *)
Theorem launch_is_one_batch_request
    {W : Type} (host : Host) (c : Ec2.Client W) (config : Document)
    (sg_id : string) (w : W) (N : Z) :
  validated config ->
  field config "instance_count" = YInt N ->
  let request := launch_request host config sg_id in
  let run := provision_ec2_instance host c config sg_id (initial w) in
  Ec2.MinCount request = 1 /\
  Ec2.MaxCount request = YInt N /\
  count_calls is_run_instances (calls run.2) = 1%nat /\
  (exists status,
     head (calls run.2)
     = Some {| ev_call := Ec2.RunInstances request; ev_error := status |}) /\
  forall (instance_ids public_ips : list string),
    run.1 = Return (instance_ids, public_ips) ->
    exists instances w1,
      Ec2.run_instances c request w = (Ec2.Ok instances, w1) /\
      instance_ids = map Ec2.InstanceId instances /\
      length instance_ids = length instances.
Proof.
  intros Hvalid Hcount request run.
  split; [reflexivity |]. split; [exact Hcount |].
  destruct (Ec2.run_instances c request w) as [[instances | e] w1] eqn:Hlaunch.
  - destruct (Ec2.wait_instance_running c (map Ec2.InstanceId instances) w1)
      as [[[] | e] w2] eqn:Hwait.
    + destruct (Ec2.describe_instances c (map Ec2.InstanceId instances) w2)
        as [[reservations | e] w3] eqn:Hdescribe.
      * unfold run.
        rewrite (launch_goes_through host c config sg_id w w1 w2 w3
                   instances reservations Hvalid Hlaunch Hwait Hdescribe).
        cbn. split; [reflexivity |]. split; [eexists; reflexivity |].
        intros instance_ids public_ips [= <- _].
        exists instances, w1. repeat split. apply length_map.
      * unfold request, launch_request in Hlaunch. unfold run.
        enter_launch Hvalid. rewrite Hlaunch. cbn. rewrite Hwait. cbn.
        rewrite Hdescribe. cbn. hint_cases e.
        all: split; [reflexivity |]; split; [eexists; reflexivity |].
        all: intros instance_ids public_ips [=].
    + unfold request, launch_request in Hlaunch. unfold run.
      enter_launch Hvalid. rewrite Hlaunch. cbn. rewrite Hwait. cbn.
      split; [reflexivity |]. split; [eexists; reflexivity |].
      intros instance_ids public_ips [=].
  - unfold request, launch_request in Hlaunch. unfold run.
    enter_launch Hvalid. rewrite Hlaunch. cbn. hint_cases e.
    all: split; [reflexivity |]; split; [eexists; reflexivity |].
    all: intros instance_ids public_ips [=].
Qed.

Lemma launch_is_one_batch_request_witness :
  let config := DocMap (Scripted.config 3) in
  let host := Scripted.host_with config in
  let c := Scripted.client
             (Scripted.with_launch (Scripted.launch_with_capacity 5)
                (Ec2.Ok []) Scripted.fresh_account) in
  let run := provision_ec2_instance host c config "sg-0f1" (initial 0%nat) in
  Ec2.MaxCount (launch_request host config "sg-0f1") = YInt 3 /\
  count_calls is_run_instances (calls run.2) = 1%nat /\
  run.1 = Return (["i-001"; "i-002"; "i-003"], []).
Proof.
  intros config host c run.
  destruct (launch_is_one_batch_request host c config "sg-0f1" 0%nat 3
              eq_refl eq_refl) as (_ & Hmax & Hone & _).
  exact (conj Hmax (conj Hone eq_refl)).
Defined.

(** C1, counterexample: with [instance_count] 3 the request has the
    minimum 1, and a region with room for one instance grants it with one
    instance; the function returns that single identifier. *)
Lemma launch_may_start_fewer_than_requested :
  let config := DocMap (Scripted.config 3) in
  let host := Scripted.host_with config in
  let c := Scripted.client Scripted.fresh_account in
  let run := provision_ec2_instance host c config "sg-0f1" (initial 0%nat) in
  validated config /\
  field config "instance_count" = YInt 3 /\
  Ec2.MinCount (launch_request host config "sg-0f1") < 3 /\
  run.1 = Return (["i-001"], ["203.0.113.7"]) /\
  length (fst (["i-001"], ["203.0.113.7"])) = 1%nat /\
  head (calls run.2)
  = Some (answered (Ec2.RunInstances (launch_request host config "sg-0f1"))).
Proof.
  cbv zeta. repeat split; vm_compute; reflexivity.
Qed.

(** * Further properties of the script *)

(** ** Before the first call *)

(** X1. When [config.yaml] is absent or does not parse, the process prints
    the one message that says so and ends with [sys.exit(1)], before any
    client is created or called. *)
Theorem unreadable_config_is_fatal_before_any_call
    {W : Type} (host : Host) (c : Ec2.Client W) (w : W) :
  let run := run_main host c w in
  (open_read host "config.yaml" = None ->
   run.1 = Raise (SystemExit 1) /\
   calls run.2 = [] /\
   stdout run.2 = ["Error: Config file 'config.yaml' not found."]) /\
  (forall file msg,
     open_read host "config.yaml" = Some file ->
     yaml_safe_load host file = inl msg ->
     run.1 = Raise (SystemExit 1) /\
     calls run.2 = [] /\
     stdout run.2 = ["Error parsing config file 'config.yaml': " +:+ msg]).
Proof.
  split.
  - intros Hopen. run_script. rewrite Hopen. cbn. repeat split.
  - intros file msg Hopen Hyaml. run_script. rewrite Hopen. cbn.
    rewrite Hyaml. cbn. repeat split.
Qed.

(** X2. When the parsed document is not a mapping, or is a mapping without
    [aws_region], the first subscript of [main] raises ([TypeError],
    [KeyError]); nothing catches it, so the process ends with status 1,
    having printed nothing and called nothing. *)
Theorem unusable_document_fails_before_any_call
    {W : Type} (host : Host) (c : Ec2.Client W) (w : W)
    (file : string) (config : Document) :
  open_read host "config.yaml" = Some file ->
  yaml_safe_load host file = inr config ->
  has_field config "aws_region" = false ->
  let run := run_main host c w in
  run.1 = Raise (match config with
                 | DocMap _ => KeyError "aws_region"
                 | DocOther _ => TypeError
                 end) /\
  exit_status run.1 = 1 /\
  calls run.2 = [] /\
  stdout run.2 = [].
Proof.
  intros Hopen Hyaml Hregion. run_script. rewrite Hopen. cbn. rewrite Hyaml. cbn.
  destruct config as [m | v]; cbn in *.
  - destruct (m !! "aws_region"); [discriminate |]. cbn. repeat split.
  - repeat split.
Qed.

Lemma unusable_document_fails_before_any_call_witness :
  let host := Scripted.host_with (DocOther YNone) in
  let run := run_main host (Scripted.client Scripted.fresh_account) 0%nat in
  run.1 = Raise TypeError /\
  exit_status run.1 = 1 /\
  calls run.2 = [] /\
  stdout run.2 = [].
Proof.
  intros host.
  exact (unusable_document_fails_before_any_call host
           (Scripted.client Scripted.fresh_account) 0%nat "..."
           (DocOther YNone) eq_refl eq_refl eq_refl).
Defined.

(** X3. [provision_ec2_instance] reads [instance_count], [ami_id],
    [instance_type] and [key_pair_name] before it calls the client: the
    first of them that the mapping lacks raises its [KeyError] and no call
    is made.  The line that announces the attempt is already printed unless
    the missing field is [instance_count] itself. *)
Theorem missing_launch_field_stops_before_the_launch
    {W : Type} (host : Host) (c : Ec2.Client W) (m : gmap string yval)
    (sg_id : string) (w : W) (key : string) :
  first_missing m launch_fields = Some key ->
  let run := provision_ec2_instance host c (DocMap m) sg_id (initial w) in
  run.1 = Raise (KeyError key) /\
  calls run.2 = [] /\
  world run.2 = w /\
  stdout run.2 = if String.eqb key "instance_count" then []
                 else [attempt_line (DocMap m)].
Proof.
  unfold first_missing, launch_fields. cbn. intros Hkey. run_script.
  unfold attempt_line. cbn.
  destruct (m !! "instance_count") as [n |]; cbn;
    [| injection Hkey as <-; repeat split].
  destruct (m !! "ami_id"); cbn; [| injection Hkey as <-; repeat split].
  destruct (m !! "instance_type"); cbn; [| injection Hkey as <-; repeat split].
  destruct (m !! "key_pair_name"); cbn; [discriminate |].
  injection Hkey as <-. repeat split.
Qed.

Lemma missing_launch_field_stops_before_the_launch_witness :
  let m := delete "instance_type" (Scripted.config 1) in
  let host := Scripted.host_with (DocMap m) in
  let run := provision_ec2_instance host (Scripted.client Scripted.fresh_account)
               (DocMap m) "sg-0f1" (initial 0%nat) in
  run.1 = Raise (KeyError "instance_type") /\
  calls run.2 = [] /\
  world run.2 = 0%nat /\
  stdout run.2 = [attempt_line (DocMap m)].
Proof.
  intros m host.
  exact (missing_launch_field_stops_before_the_launch host
           (Scripted.client Scripted.fresh_account) m "sg-0f1" 0%nat
           "instance_type" eq_refl).
Defined.

(** ** The other ways out of [create_security_group] *)

(** X4. When the lookup of the security group fails with a message that
    does not contain [DoesNotExist], the function prints the error and ends
    with [sys.exit(1)]; the lookup is its only call, no group is created. *)
Theorem other_lookup_failure_is_fatal
    {W : Type} (c : Ec2.Client W) (vpc_id : string)
    (sg_name sg_description : yval) (w w1 : W) (e : string) :
  Ec2.describe_security_groups c [sg_name] w = (Ec2.Fails e, w1) ->
  str_in "DoesNotExist" e = false ->
  let run := create_security_group c vpc_id sg_name sg_description (initial w) in
  run.1 = Raise (SystemExit 1) /\
  calls run.2 = [refused (Ec2.DescribeSecurityGroups [sg_name]) e] /\
  last (stdout run.2) = Some ("Error describing security group: " +:+ e) /\
  world run.2 = w1.
Proof.
  intros Hlookup Hother. run_script. rewrite Hlookup. cbn. rewrite Hother. cbn.
  repeat split.
Qed.

Lemma other_lookup_failure_is_fatal_witness :
  let e := "An error occurred (UnauthorizedOperation) when calling the DescribeSecurityGroups operation" in
  let c := Scripted.client
             (Scripted.with_groups (Ec2.Fails e) Scripted.fresh_account) in
  let run := create_security_group c "vpc-0a1" (YStr "sg-test") (YStr "test")
               (initial 0%nat) in
  run.1 = Raise (SystemExit 1) /\
  calls run.2 = [refused (Ec2.DescribeSecurityGroups [YStr "sg-test"]) e] /\
  last (stdout run.2) = Some ("Error describing security group: " +:+ e) /\
  world run.2 = 1%nat.
Proof.
  intros e c.
  exact (other_lookup_failure_is_fatal c "vpc-0a1" (YStr "sg-test")
           (YStr "test") 0%nat 1%nat e eq_refl eq_refl).
Defined.

(** X5. When the lookup is answered with an empty list of groups, the
    subscript [[0]] raises [IndexError], which the handler for
    [ClientError] does not catch: no group is created and only the first
    progress line has been printed. *)
Theorem empty_lookup_answer_raises_IndexError
    {W : Type} (c : Ec2.Client W) (vpc_id : string)
    (sg_name sg_description : yval) (w w1 : W) :
  Ec2.describe_security_groups c [sg_name] w = (Ec2.Ok [], w1) ->
  let run := create_security_group c vpc_id sg_name sg_description (initial w) in
  run.1 = Raise IndexError /\
  exit_status run.1 = 1 /\
  calls run.2 = [answered (Ec2.DescribeSecurityGroups [sg_name])] /\
  stdout run.2
    = ["Checking for existing security group: " +:+ py_str sg_name +:+ "..."].
Proof.
  intros Hlookup. run_script. rewrite Hlookup. cbn. repeat split.
Qed.

Lemma empty_lookup_answer_raises_IndexError_witness :
  let c := Scripted.client
             (Scripted.with_groups (Ec2.Ok []) Scripted.fresh_account) in
  let run := create_security_group c "vpc-0a1" (YStr "sg-test") (YStr "test")
               (initial 0%nat) in
  run.1 = Raise IndexError /\
  exit_status run.1 = 1 /\
  calls run.2 = [answered (Ec2.DescribeSecurityGroups [YStr "sg-test"])] /\
  stdout run.2 = ["Checking for existing security group: sg-test..."].
Proof.
  intros c.
  exact (empty_lookup_answer_raises_IndexError c "vpc-0a1" (YStr "sg-test")
           (YStr "test") 0%nat 1%nat eq_refl).
Defined.

(** X6. When the group is not found and its creation is refused, the
    function prints the error and ends with [sys.exit(1)] without asking
    for any ingress rule. *)
Theorem refused_creation_is_fatal
    {W : Type} (c : Ec2.Client W) (vpc_id : string)
    (sg_name sg_description : yval) (w w1 w2 : W) (e e1 : string) :
  Ec2.describe_security_groups c [sg_name] w = (Ec2.Fails e, w1) ->
  str_in "DoesNotExist" e = true ->
  Ec2.create_security_group c sg_name sg_description vpc_id w1
    = (Ec2.Fails e1, w2) ->
  let run := create_security_group c vpc_id sg_name sg_description (initial w) in
  run.1 = Raise (SystemExit 1) /\
  calls run.2
    = [ refused (Ec2.DescribeSecurityGroups [sg_name]) e;
        refused (Ec2.CreateSecurityGroup sg_name sg_description vpc_id) e1 ] /\
  count_calls is_authorize_ingress (calls run.2) = 0%nat /\
  last (stdout run.2)
    = Some ("Error creating security group or adding rules: " +:+ e1).
Proof.
  intros Hlookup Hnotfound Hcreate. run_script. rewrite Hlookup. cbn.
  rewrite Hnotfound. cbn. rewrite Hcreate. cbn. repeat split.
Qed.

Lemma refused_creation_is_fatal_witness :
  let e := "An error occurred (InvalidGroup.DoesNotExist) when calling the DescribeSecurityGroups operation" in
  let e1 := "An error occurred (SecurityGroupLimitExceeded) when calling the CreateSecurityGroup operation" in
  let c := Scripted.client (with_create (Ec2.Fails e1) Scripted.fresh_account) in
  let run := create_security_group c "vpc-0a1" (YStr "sg-test") (YStr "test")
               (initial 0%nat) in
  run.1 = Raise (SystemExit 1) /\
  calls run.2
    = [ refused (Ec2.DescribeSecurityGroups [YStr "sg-test"]) e;
        refused (Ec2.CreateSecurityGroup (YStr "sg-test") (YStr "test") "vpc-0a1")
          e1 ] /\
  count_calls is_authorize_ingress (calls run.2) = 0%nat /\
  last (stdout run.2)
    = Some ("Error creating security group or adding rules: " +:+ e1).
Proof.
  intros e e1 c.
  exact (refused_creation_is_fatal c "vpc-0a1" (YStr "sg-test") (YStr "test")
           0%nat 1%nat 2%nat e e1 eq_refl eq_refl eq_refl).
Defined.

(** X7. Whenever [create_security_group] returns an identifier, either
    the lookup was answered and was the only call, or the group was created
    and both ingress rules were granted on the very identifier returned: a
    group created with a rule missing is never returned. *)
Theorem returned_group_is_found_or_complete
    {W : Type} (c : Ec2.Client W) (vpc_id : string)
    (sg_name sg_description : yval) (w : W) (sg_id : string) :
  let run := create_security_group c vpc_id sg_name sg_description (initial w) in
  run.1 = Return sg_id ->
  calls run.2 = [answered (Ec2.DescribeSecurityGroups [sg_name])] \/
  exists e,
    str_in "DoesNotExist" e = true /\
    calls run.2
    = [ refused (Ec2.DescribeSecurityGroups [sg_name]) e;
        answered (Ec2.CreateSecurityGroup sg_name sg_description vpc_id);
        answered (Ec2.AuthorizeSecurityGroupIngress sg_id (ingress_rule 22));
        answered (Ec2.AuthorizeSecurityGroupIngress sg_id (ingress_rule 80)) ].
Proof.
  run_script.
  destruct (Ec2.describe_security_groups c [sg_name] w)
    as [[[| found others] | e] w1]; cbn; try discriminate.
  - intros _. left. reflexivity.
  - destruct (str_in "DoesNotExist" e) eqn:Hnotfound; cbn; [| discriminate].
    destruct (Ec2.create_security_group c sg_name sg_description vpc_id w1)
      as [[created | e1] w2]; cbn; [| discriminate].
    destruct (Ec2.authorize_security_group_ingress c created _ w2)
      as [[[] | e2] w3]; cbn; [| discriminate].
    destruct (Ec2.authorize_security_group_ingress c created _ w3)
      as [[[] | e3] w4]; cbn; [| discriminate].
    intros [= <-]. right. exists e. split; [exact Hnotfound | reflexivity].
Qed.

Lemma returned_group_is_found_or_complete_witness :
  let c := Scripted.client Scripted.fresh_account in
  let run := create_security_group c "vpc-0a1" (YStr "sg-test") (YStr "test")
               (initial 0%nat) in
  calls run.2 = [answered (Ec2.DescribeSecurityGroups [YStr "sg-test"])] \/
  exists e,
    str_in "DoesNotExist" e = true /\
    calls run.2
    = [ refused (Ec2.DescribeSecurityGroups [YStr "sg-test"]) e;
        answered (Ec2.CreateSecurityGroup (YStr "sg-test") (YStr "test") "vpc-0a1");
        answered (Ec2.AuthorizeSecurityGroupIngress "sg-0f1" (ingress_rule 22));
        answered (Ec2.AuthorizeSecurityGroupIngress "sg-0f1" (ingress_rule 80)) ].
Proof.
  intros c.
  exact (returned_group_is_found_or_complete c "vpc-0a1" (YStr "sg-test")
           (YStr "test") 0%nat "sg-0f1" eq_refl).
Defined.

(** ** The default VPC, the other ways *)

(** X8. When the lookup of the default VPC is refused, the process prints
    the error and ends with [sys.exit(1)]; the lookup is the only remote
    call of the run. *)
Theorem refused_vpc_lookup_is_fatal
    {W : Type} (host : Host) (c : Ec2.Client W) (w w1 : W) (e : string)
    (file : string) (m : gmap string yval) (region : yval) :
  open_read host "config.yaml" = Some file ->
  yaml_safe_load host file = inr (DocMap m) ->
  m !! "aws_region" = Some region ->
  Ec2.describe_vpcs c default_vpc_filters w = (Ec2.Fails e, w1) ->
  let run := run_main host c w in
  run.1 = Raise (SystemExit 1) /\
  calls run.2 = [ answered (Ec2.NewClient region);
                  refused (Ec2.DescribeVpcs default_vpc_filters) e ] /\
  stdout run.2 = ["Error getting default VPC: " +:+ e].
Proof.
  intros Hopen Hyaml Hregion Hvpcs. unfold default_vpc_filters in Hvpcs.
  run_script. rewrite Hopen. cbn. rewrite Hyaml. cbn. rewrite Hregion. cbn.
  rewrite Hvpcs. cbn. repeat split.
Qed.

Lemma refused_vpc_lookup_is_fatal_witness :
  let e := "An error occurred (AuthFailure) when calling the DescribeVpcs operation" in
  let host := Scripted.host_with (DocMap (Scripted.config 1)) in
  let c := Scripted.client
             (Scripted.with_vpcs (Ec2.Fails e) Scripted.fresh_account) in
  let run := run_main host c 0%nat in
  run.1 = Raise (SystemExit 1) /\
  calls run.2 = [ answered (Ec2.NewClient (YStr "us-east-1"));
                  refused (Ec2.DescribeVpcs default_vpc_filters) e ] /\
  stdout run.2 = ["Error getting default VPC: " +:+ e].
Proof.
  intros e host c.
  exact (refused_vpc_lookup_is_fatal host c 0%nat 1%nat e "..."
           (Scripted.config 1) (YStr "us-east-1")
           eq_refl eq_refl eq_refl eq_refl).
Defined.

(** X9. The test on the emptiness of the answer comes before the subscript
    [[0]]: on every account and from every state the lookup of the default
    VPC never raises [IndexError]. *)
Theorem default_vpc_never_indexes_an_empty_list
    {W : Type} (c : Ec2.Client W) (st : State W) :
  raises_IndexError (default_vpc c st).1 = false.
Proof.
  run_script.
  destruct (Ec2.describe_vpcs c _ (world st)) as [[[| first others] | e] w1];
    reflexivity.
Qed.

(** ** The launch, the other ways *)

(** X10. The handler of the launch covers the whole [try] block: when the
    instances are launched and running but their description is refused,
    the function prints [Error launching EC2 instance(s)] with that error
    and ends with [sys.exit(1)], after the progress lines and without the
    summary; the launch itself is in the log as answered. *)
Theorem failed_description_is_reported_as_a_launch_failure
    {W : Type} (host : Host) (c : Ec2.Client W) (config : Document)
    (sg_id : string) (w w1 w2 w3 : W)
    (instances : list Ec2.Instance) (e : string) :
  validated config ->
  let instance_ids := map Ec2.InstanceId instances in
  Ec2.run_instances c (launch_request host config sg_id) w
    = (Ec2.Ok instances, w1) ->
  Ec2.wait_instance_running c instance_ids w1 = (Ec2.Ok tt, w2) ->
  Ec2.describe_instances c instance_ids w2 = (Ec2.Fails e, w3) ->
  let run := provision_ec2_instance host c config sg_id (initial w) in
  run.1 = Raise (SystemExit 1) /\
  calls run.2
    = [ answered (Ec2.RunInstances (launch_request host config sg_id));
        answered (Ec2.WaitInstanceRunning instance_ids);
        refused (Ec2.DescribeInstances instance_ids) e ] /\
  stdout run.2
    = [ attempt_line config;
        "Launched instance(s) with IDs: " +:+ join ", " instance_ids;
        "Waiting for instance(s) to enter 'running' state...";
        "Instance(s) are now running.";
        "Error launching EC2 instance(s): " +:+ e ]
      ++ hint_lines e.
Proof.
  intros Hvalid instance_ids Hlaunch Hwait Hdescribe.
  unfold launch_request in Hlaunch. enter_launch Hvalid.
  rewrite Hlaunch. cbn. fold instance_ids. rewrite Hwait. cbn.
  rewrite Hdescribe. cbn.
  unfold hint_lines, invalid_key_pair, invalid_image, attempt_line,
    launch_request.
  hint_cases e; repeat split.
Qed.

Lemma failed_description_is_reported_as_a_launch_failure_witness :
  let e := "An error occurred (RequestLimitExceeded) when calling the DescribeInstances operation" in
  let config := DocMap (Scripted.config 1) in
  let host := Scripted.host_with config in
  let c := Scripted.client
             (Scripted.with_launch (Scripted.launch_with_capacity 1)
                (Ec2.Fails e) Scripted.fresh_account) in
  let run := provision_ec2_instance host c config "sg-0f1" (initial 0%nat) in
  run.1 = Raise (SystemExit 1) /\
  calls run.2
    = [ answered (Ec2.RunInstances (launch_request host config "sg-0f1"));
        answered (Ec2.WaitInstanceRunning ["i-001"]);
        refused (Ec2.DescribeInstances ["i-001"]) e ] /\
  In ("Error launching EC2 instance(s): " +:+ e) (stdout run.2).
Proof.
  intros e config host c run.
  destruct (failed_description_is_reported_as_a_launch_failure host c config
              "sg-0f1" 0%nat 1%nat 2%nat 3%nat
              (map Scripted.instance_numbered (seq 0 1)) e
              eq_refl eq_refl eq_refl eq_refl)
    as (Hexit & Hcalls & Hprinted).
  split; [exact Hexit |]. split; [exact Hcalls |].
  fold run in Hprinted. rewrite Hprinted.
  right. right. right. right. left. reflexivity.
Defined.

(** X11. A failed wait for the running state raises the waiter's
    [WaiterError], which is not a [ClientError]: the handler does not run,
    no error line is printed, and the function ends with that exception
    (exit status 1) after an answered launch. *)
Theorem failed_running_wait_is_not_handled
    {W : Type} (host : Host) (c : Ec2.Client W) (config : Document)
    (sg_id : string) (w w1 w2 : W)
    (instances : list Ec2.Instance) (msg : string) :
  validated config ->
  let instance_ids := map Ec2.InstanceId instances in
  Ec2.run_instances c (launch_request host config sg_id) w
    = (Ec2.Ok instances, w1) ->
  Ec2.wait_instance_running c instance_ids w1 = (Ec2.Fails msg, w2) ->
  let run := provision_ec2_instance host c config sg_id (initial w) in
  run.1 = Raise (WaiterError msg) /\
  exit_status run.1 = 1 /\
  calls run.2
    = [ answered (Ec2.RunInstances (launch_request host config sg_id));
        refused (Ec2.WaitInstanceRunning instance_ids) msg ] /\
  stdout run.2
    = [ attempt_line config;
        "Launched instance(s) with IDs: " +:+ join ", " instance_ids;
        "Waiting for instance(s) to enter 'running' state..." ].
Proof.
  intros Hvalid instance_ids Hlaunch Hwait.
  unfold launch_request in Hlaunch. enter_launch Hvalid.
  rewrite Hlaunch. cbn. fold instance_ids. rewrite Hwait. cbn.
  repeat split.
Qed.

Lemma failed_running_wait_is_not_handled_witness :
  let msg := "Waiter InstanceRunning failed: Max attempts exceeded" in
  let config := DocMap (Scripted.config 1) in
  let host := Scripted.host_with config in
  let c := Scripted.client
             (with_waits (Ec2.Fails msg) (Ec2.Ok tt) Scripted.fresh_account) in
  let run := provision_ec2_instance host c config "sg-0f1" (initial 0%nat) in
  run.1 = Raise (WaiterError msg) /\
  exit_status run.1 = 1 /\
  calls run.2
    = [ answered (Ec2.RunInstances (launch_request host config "sg-0f1"));
        refused (Ec2.WaitInstanceRunning ["i-001"]) msg ].
Proof.
  intros msg config host c run.
  destruct (failed_running_wait_is_not_handled host c config "sg-0f1"
              0%nat 1%nat 2%nat (map Scripted.instance_numbered (seq 0 1)) msg
              eq_refl eq_refl eq_refl)
    as (Hraise & Hstatus & Hcalls & _).
  exact (conj Hraise (conj Hstatus Hcalls)).
Defined.

Lemma address_lines_app (lines lines' : list string) :
  address_lines (lines ++ lines')
  = (address_lines lines + address_lines lines')%nat.
Proof.
  unfold address_lines. rewrite List.filter_app. apply length_app.
Qed.

Lemma summary_block_length (config : Document) (sg_id : string)
    (public_ips : list string) (i : nat) (instance_id : string) :
  length (summary_block config sg_id public_ips i instance_id)
  = (6 + if (i <? length public_ips)%nat then 1 else 0)%nat.
Proof.
  unfold summary_block.
  destruct (i <? length public_ips)%nat eqn:Hi.
  - apply Nat.ltb_lt, lookup_lt_is_Some in Hi. destruct Hi as [ip ->].
    reflexivity.
  - apply Nat.ltb_ge, lookup_ge_None in Hi. rewrite Hi. reflexivity.
Qed.

Lemma summary_blocks_from (config : Document) (sg_id : string)
    (public_ips : list string) (instance_ids : list string) (i : nat) :
  let blocks :=
    concat (imap (fun j => summary_block config sg_id public_ips (i + j))
              instance_ids) in
  address_lines blocks
  = Nat.min (length instance_ids) (length public_ips - i) /\
  length blocks
  = (6 * length instance_ids
     + Nat.min (length instance_ids) (length public_ips - i))%nat.
Proof.
  revert i. induction instance_ids as [| instance_id rest IH]; intros i.
  - split; reflexivity.
  - cbn [imap concat length].
    rewrite address_lines_app, length_app, address_lines_of_block,
      summary_block_length, Nat.add_0_r.
    rewrite (imap_ext _ (fun j => summary_block config sg_id public_ips (S i + j)))
      by (intros j x _; unfold summary_block; cbn;
          rewrite Nat.add_succ_r; reflexivity).
    destruct (IH (S i)) as [-> ->].
    destruct (i <? length public_ips)%nat eqn:Hi.
    + apply Nat.ltb_lt in Hi. split; lia.
    + apply Nat.ltb_ge in Hi. split; lia.
Qed.

(** X12. With a validated configuration the loop of the summary ends
    normally for any two lists, makes no call, and prints six lines for
    each identifier plus one address line for each of the first
    [min (len ids) (len ips)] of them. *)
Theorem summary_has_an_address_line_for_the_first_ones
    {W : Type} (config : Document) (sg_id : string)
    (public_ips instance_ids : list string) (w : W) :
  validated config ->
  let run := summary_loop config sg_id public_ips 0 instance_ids (initial w) in
  run.1 = Return tt /\
  calls run.2 = [] /\
  address_lines (stdout run.2)
  = Nat.min (length instance_ids) (length public_ips) /\
  length (stdout run.2)
  = (6 * length instance_ids
     + Nat.min (length instance_ids) (length public_ips))%nat.
Proof.
  intros Hvalid run. unfold run.
  rewrite (summary_loop_validated _ _ _ _ Hvalid). cbn [fst snd calls stdout initial].
  destruct (summary_blocks_from config sg_id public_ips instance_ids 0)
    as [Haddresses Hlines].
  cbn [Nat.add] in Haddresses, Hlines. rewrite Nat.sub_0_r in Haddresses, Hlines.
  cbn [app]. repeat split; assumption.
Qed.

Lemma summary_has_an_address_line_for_the_first_ones_witness :
  let config := DocMap (Scripted.config 3) in
  let run := summary_loop config "sg-0f1" ["203.0.113.7"; "203.0.113.9"] 0
               ["i-001"; "i-002"; "i-003"] (initial 0%nat) in
  run.1 = Return tt /\
  calls run.2 = [] /\
  address_lines (stdout run.2) = 2%nat /\
  length (stdout run.2) = 20%nat.
Proof.
  intros config.
  exact (summary_has_an_address_line_for_the_first_ones config "sg-0f1"
           ["203.0.113.7"; "203.0.113.9"] ["i-001"; "i-002"; "i-003"] 0%nat
           eq_refl).
Defined.

(** X13. The addresses collected from the description of the instances are
    exactly the [PublicIpAddress] values present in it: none is invented and
    none is left out. *)
Theorem collected_addresses_are_those_described
    (reservations : list Ec2.Reservation) (ip : string) :
  In ip (collect_public_ips reservations) <->
  exists (reservation : Ec2.Reservation) (instance : Ec2.Instance),
    In reservation reservations /\
    In instance (Ec2.Instances reservation) /\
    Ec2.PublicIpAddress instance = Some ip.
Proof.
  rewrite collect_public_ips_spec. unfold instances_of.
  rewrite <- list_elem_of_In, list_elem_of_omap. split.
  - intros (instance & Hin & Haddress).
    apply list_elem_of_In, in_flat_map in Hin.
    destruct Hin as (reservation & Hres & Hinst). eauto 6.
  - intros (reservation & instance & Hres & Hinst & Haddress).
    exists instance. split; [| exact Haddress].
    apply list_elem_of_In, in_flat_map. eauto.
Qed.

(** ** The reclaimer, the other ways *)


(** X15. When every request is granted, [cleanup_resources] terminates the
    instances, waits for them to be terminated, sleeps ten seconds and only
    then deletes the security group, in this order, and reports both
    successes. *)
Theorem reclaim_goes_in_order
    {W : Type} (c : Ec2.Client W) (instance_ids : list string)
    (sg_id : string) (w w1 w2 w3 : W) :
  nonempty instance_ids = true ->
  nonempty_str sg_id = true ->
  Ec2.terminate_instances c instance_ids w = (Ec2.Ok tt, w1) ->
  Ec2.wait_instance_terminated c instance_ids w1 = (Ec2.Ok tt, w2) ->
  Ec2.delete_security_group c sg_id w2 = (Ec2.Ok tt, w3) ->
  let run := cleanup_resources c instance_ids sg_id (initial w) in
  run.1 = Return tt /\
  calls run.2
    = [ answered (Ec2.TerminateInstances instance_ids);
        answered (Ec2.WaitInstanceTerminated instance_ids);
        answered (Ec2.Sleep 10);
        answered (Ec2.DeleteSecurityGroup sg_id) ] /\
  stdout run.2
    = [ newline +:+ "Terminating instance(s): " +:+ join ", " instance_ids
          +:+ "...";
        "Instance(s) terminated successfully.";
        "Deleting security group: " +:+ sg_id +:+ "...";
        "Security group '" +:+ sg_id +:+ "' deleted successfully." ] /\
  world run.2 = w3.
Proof.
  intros Hids Hsg Hterminate Hwait Hdelete. run_script.
  rewrite Hids. cbn. rewrite Hterminate. cbn. rewrite Hwait. cbn.
  rewrite Hsg. cbn. rewrite Hdelete. cbn. repeat split.
Qed.

Lemma reclaim_goes_in_order_witness :
  let c := Scripted.client Scripted.fresh_account in
  let run := cleanup_resources c ["i-001"] "sg-0f1" (initial 0%nat) in
  run.1 = Return tt /\
  calls run.2
    = [ answered (Ec2.TerminateInstances ["i-001"]);
        answered (Ec2.WaitInstanceTerminated ["i-001"]);
        answered (Ec2.Sleep 10);
        answered (Ec2.DeleteSecurityGroup "sg-0f1") ] /\
  world run.2 = 3%nat.
Proof.
  intros c run.
  destruct (reclaim_goes_in_order c ["i-001"] "sg-0f1" 0%nat 1%nat 2%nat 3%nat
              eq_refl eq_refl eq_refl eq_refl eq_refl)
    as (Hreturn & Hcalls & _ & Hworld).
  exact (conj Hreturn (conj Hcalls Hworld)).
Defined.

(** X16. A failed wait for the terminated state raises [WaiterError], which
    the handler for [ClientError] does not catch: [cleanup_resources] ends
    with that exception and the deletion of the security group is not
    attempted. *)
Theorem failed_terminated_wait_skips_the_deletion
    {W : Type} (c : Ec2.Client W) (instance_ids : list string)
    (sg_id : string) (w w1 w2 : W) (msg : string) :
  nonempty instance_ids = true ->
  Ec2.terminate_instances c instance_ids w = (Ec2.Ok tt, w1) ->
  Ec2.wait_instance_terminated c instance_ids w1 = (Ec2.Fails msg, w2) ->
  let run := cleanup_resources c instance_ids sg_id (initial w) in
  run.1 = Raise (WaiterError msg) /\
  exit_status run.1 = 1 /\
  calls run.2
    = [ answered (Ec2.TerminateInstances instance_ids);
        refused (Ec2.WaitInstanceTerminated instance_ids) msg ] /\
  count_calls is_delete_security_group (calls run.2) = 0%nat.
Proof.
  intros Hids Hterminate Hwait. run_script.
  rewrite Hids. cbn. rewrite Hterminate. cbn. rewrite Hwait. cbn.
  repeat split.
Qed.

Lemma failed_terminated_wait_skips_the_deletion_witness :
  let msg := "Waiter InstanceTerminated failed: Max attempts exceeded" in
  let c := Scripted.client
             (with_waits (Ec2.Ok tt) (Ec2.Fails msg) Scripted.fresh_account) in
  let run := cleanup_resources c ["i-001"] "sg-0f1" (initial 0%nat) in
  run.1 = Raise (WaiterError msg) /\
  exit_status run.1 = 1 /\
  calls run.2
    = [ answered (Ec2.TerminateInstances ["i-001"]);
        refused (Ec2.WaitInstanceTerminated ["i-001"]) msg ] /\
  count_calls is_delete_security_group (calls run.2) = 0%nat.
Proof.
  intros msg c.
  exact (failed_terminated_wait_skips_the_deletion c ["i-001"] "sg-0f1"
           0%nat 1%nat 2%nat msg eq_refl eq_refl eq_refl).
Defined.

(** ** What no run does *)

Lemma count_calls_app (p : Ec2.Call -> bool) (log log' : list Event) :
  count_calls p (log ++ log')
  = (count_calls p log + count_calls p log')%nat.
Proof.
  induction log as [| e rest IH]; cbn; [reflexivity |]. rewrite IH. lia.
Qed.

Create HintDb no_call discriminated.

Lemma adds_no_call_ret {W A : Type} (p : Ec2.Call -> bool) (a : A) :
  adds_no_call p (@ret W A a).
Proof. intros st. reflexivity. Qed.

Lemma adds_no_call_raise {W A : Type} (p : Ec2.Call -> bool) (e : exn) :
  adds_no_call p (@raise W A e).
Proof. intros st. reflexivity. Qed.

Lemma adds_no_call_sys_exit {W A : Type} (p : Ec2.Call -> bool) (code : Z) :
  adds_no_call p (@sys_exit W A code).
Proof. intros st. reflexivity. Qed.

Lemma adds_no_call_print {W : Type} (p : Ec2.Call -> bool) (line : string) :
  adds_no_call p (@print W line).
Proof. intros st. reflexivity. Qed.

Lemma adds_no_call_getitem {W : Type} (p : Ec2.Call -> bool)
    (config : Document) (key : string) :
  adds_no_call p (@getitem W config key).
Proof.
  intros st. unfold getitem.
  destruct config as [m | v]; [destruct (m !! key) |]; reflexivity.
Qed.

Lemma adds_no_call_index {W A : Type} (p : Ec2.Call -> bool)
    (xs : list A) (i : nat) :
  adds_no_call p (@index W A xs i).
Proof. intros st. unfold index. destruct (xs !! i); reflexivity. Qed.

Lemma adds_no_call_invoke {W A : Type} (p : Ec2.Call -> bool) (c : Ec2.Call)
    (op : W -> Ec2.reply A * W) :
  p c = false -> adds_no_call p (invoke c op).
Proof.
  intros Hc st. unfold invoke, log.
  destruct (op (world st)) as [[a | msg] w']; cbn;
    rewrite count_calls_app; cbn; rewrite Hc; lia.
Qed.

Lemma adds_no_call_wait {W : Type} (p : Ec2.Call -> bool) (c : Ec2.Call)
    (op : W -> Ec2.reply unit * W) :
  p c = false -> adds_no_call p (wait c op).
Proof.
  intros Hc st. unfold wait, log.
  destruct (op (world st)) as [[a | msg] w']; cbn;
    rewrite count_calls_app; cbn; rewrite Hc; lia.
Qed.

Lemma adds_no_call_act {W : Type} (p : Ec2.Call -> bool) (c : Ec2.Call) :
  p c = false -> adds_no_call p (@act W c).
Proof.
  intros Hc st. unfold act, log. cbn.
  rewrite count_calls_app. cbn. rewrite Hc. lia.
Qed.

Lemma adds_no_call_bind {W A B : Type} (p : Ec2.Call -> bool)
    (m : M W A) (k : A -> M W B) :
  adds_no_call p m -> (forall a, adds_no_call p (k a)) ->
  adds_no_call p (bind m k).
Proof.
  intros Hm Hk st. unfold bind. specialize (Hm st).
  destruct (m st) as [[a | e] st1]; cbn in *.
  - rewrite (Hk a st1). exact Hm.
  - exact Hm.
Qed.

Lemma adds_no_call_try {W A : Type} (p : Ec2.Call -> bool)
    (body : M W A) (handler : string -> M W A) :
  adds_no_call p body -> (forall e, adds_no_call p (handler e)) ->
  adds_no_call p (try_except_ClientError body handler).
Proof.
  intros Hbody Hhandler st. unfold try_except_ClientError.
  specialize (Hbody st).
  destruct (body st) as [[a | []] st1]; cbn in *; try exact Hbody.
  rewrite (Hhandler msg st1). exact Hbody.
Qed.

Lemma adds_no_call_if {W A : Type} (p : Ec2.Call -> bool) (b : bool)
    (m1 m2 : M W A) :
  adds_no_call p m1 -> adds_no_call p m2 ->
  adds_no_call p (if b then m1 else m2).
Proof. destruct b; trivial. Qed.

#[local] Hint Resolve adds_no_call_ret adds_no_call_raise adds_no_call_sys_exit
  adds_no_call_print adds_no_call_getitem adds_no_call_index
  adds_no_call_invoke adds_no_call_wait adds_no_call_act adds_no_call_bind
  adds_no_call_try adds_no_call_if : no_call.
#[local] Hint Extern 1 (_ = false) => reflexivity : no_call.

Lemma adds_no_call_summary_loop {W : Type} (p : Ec2.Call -> bool)
    (config : Document) (sg_id : string)
    (public_ips : list string) (instance_ids : list string) (i : nat) :
  adds_no_call p (@summary_loop W config sg_id public_ips i instance_ids).
Proof.
  revert i. induction instance_ids as [| instance_id rest IH]; intros i; cbn.
  - apply adds_no_call_ret.
  - auto 20 with no_call.
Qed.

#[local] Hint Resolve adds_no_call_summary_loop : no_call.

Lemma adds_no_call_load_config {W : Type} (p : Ec2.Call -> bool)
    (host : Host) (config_path : string) :
  adds_no_call p (@load_config W host config_path).
Proof.
  unfold load_config. destruct (open_read host config_path) as [file |].
  - destruct (yaml_safe_load host file); auto with no_call.
  - auto with no_call.
Qed.

#[local] Hint Resolve adds_no_call_load_config : no_call.

(** X17. No run of [main] terminates an instance, waits for a termination,
    sleeps or deletes a security group: the call to [cleanup_resources] is
    commented out, and nothing else in the program makes these calls. *)
Theorem main_never_reclaims
    {W : Type} (host : Host) (c : Ec2.Client W) (w : W) :
  count_calls is_reclaim_call (calls (run_main host c w).2) = 0%nat.
Proof.
  assert (H : adds_no_call is_reclaim_call (main host c)).
  { unfold main, default_vpc, create_security_group, provision_ec2_instance.
    auto 40 with no_call. }
  exact (H (initial w)).
Qed.

(** X18. [provision_ec2_instance] never creates or deletes a security group
    and never authorizes an ingress rule, from whatever state and on
    whatever account it runs. *)
Theorem launch_changes_no_security_group
    {W : Type} (host : Host) (c : Ec2.Client W) (config : Document)
    (sg_id : string) (st : State W) :
  count_calls is_group_change
    (calls (provision_ec2_instance host c config sg_id st).2)
  = count_calls is_group_change (calls st).
Proof.
  revert st. change (adds_no_call is_group_change
                       (provision_ec2_instance host c config sg_id)).
  unfold provision_ec2_instance. auto 40 with no_call.
Qed.

(** X19. [create_security_group] makes no call about instances and never
    deletes a security group, from whatever state and on whatever account
    it runs. *)
Theorem create_security_group_touches_no_instance
    {W : Type} (c : Ec2.Client W) (vpc_id : string)
    (sg_name sg_description : yval) (st : State W) :
  let run := create_security_group c vpc_id sg_name sg_description st in
  count_calls is_instance_call (calls run.2)
  = count_calls is_instance_call (calls st) /\
  count_calls is_delete_security_group (calls run.2)
  = count_calls is_delete_security_group (calls st).
Proof.
  split; revert st.
  - change (adds_no_call is_instance_call
              (create_security_group c vpc_id sg_name sg_description)).
    unfold create_security_group. auto 40 with no_call.
  - change (adds_no_call is_delete_security_group
              (create_security_group c vpc_id sg_name sg_description)).
    unfold create_security_group. auto 40 with no_call.
Qed.

(** ** How a run can end *)

Create HintDb endings discriminated.

Lemma exits_with_1_ret {W A : Type} (a : A) : exits_with_1 (@ret W A a).
Proof. intros st code [=]. Qed.

Lemma exits_with_1_sys_exit {W A : Type} : exits_with_1 (@sys_exit W A 1).
Proof. intros st code [= <-]. reflexivity. Qed.

Lemma exits_with_1_print {W : Type} (line : string) :
  exits_with_1 (@print W line).
Proof. intros st code [=]. Qed.

Lemma exits_with_1_getitem {W : Type} (config : Document) (key : string) :
  exits_with_1 (@getitem W config key).
Proof.
  intros st code. unfold getitem.
  destruct config as [m | v]; [destruct (m !! key) |]; intros [=].
Qed.

Lemma exits_with_1_index {W A : Type} (xs : list A) (i : nat) :
  exits_with_1 (@index W A xs i).
Proof. intros st code. unfold index. destruct (xs !! i); intros [=]. Qed.

Lemma exits_with_1_invoke {W A : Type} (c : Ec2.Call)
    (op : W -> Ec2.reply A * W) :
  exits_with_1 (invoke c op).
Proof.
  intros st code. unfold invoke.
  destruct (op (world st)) as [[a | msg] w']; intros [=].
Qed.

Lemma exits_with_1_wait {W : Type} (c : Ec2.Call)
    (op : W -> Ec2.reply unit * W) :
  exits_with_1 (wait c op).
Proof.
  intros st code. unfold wait.
  destruct (op (world st)) as [[a | msg] w']; intros [=].
Qed.

Lemma exits_with_1_act {W : Type} (c : Ec2.Call) : exits_with_1 (@act W c).
Proof. intros st code [=]. Qed.

Lemma exits_with_1_bind {W A B : Type} (m : M W A) (k : A -> M W B) :
  exits_with_1 m -> (forall a, exits_with_1 (k a)) -> exits_with_1 (bind m k).
Proof.
  intros Hm Hk st code. unfold bind. specialize (Hm st code).
  destruct (m st) as [[a | e] st1]; cbn in *.
  - apply Hk.
  - intros [= ->]. apply Hm. reflexivity.
Qed.

Lemma exits_with_1_try {W A : Type} (body : M W A) (handler : string -> M W A) :
  exits_with_1 body -> (forall e, exits_with_1 (handler e)) ->
  exits_with_1 (try_except_ClientError body handler).
Proof.
  intros Hbody Hhandler st code. unfold try_except_ClientError.
  specialize (Hbody st code).
  destruct (body st) as [[a | []] st1]; cbn in *; try exact Hbody.
  apply Hhandler.
Qed.

Lemma exits_with_1_if {W A : Type} (b : bool) (m1 m2 : M W A) :
  exits_with_1 m1 -> exits_with_1 m2 -> exits_with_1 (if b then m1 else m2).
Proof. destruct b; trivial. Qed.

Lemma handles_ret {W A : Type} (a : A) : handles_client_errors (@ret W A a).
Proof. intros st e [=]. Qed.

Lemma handles_sys_exit {W A : Type} (code : Z) :
  handles_client_errors (@sys_exit W A code).
Proof. intros st e [=]. Qed.

Lemma handles_print {W : Type} (line : string) :
  handles_client_errors (@print W line).
Proof. intros st e [=]. Qed.

Lemma handles_getitem {W : Type} (config : Document) (key : string) :
  handles_client_errors (@getitem W config key).
Proof.
  intros st e. unfold getitem.
  destruct config as [m | v]; [destruct (m !! key) |]; intros [=].
Qed.

Lemma handles_index {W A : Type} (xs : list A) (i : nat) :
  handles_client_errors (@index W A xs i).
Proof. intros st e. unfold index. destruct (xs !! i); intros [=]. Qed.

Lemma handles_wait {W : Type} (c : Ec2.Call) (op : W -> Ec2.reply unit * W) :
  handles_client_errors (wait c op).
Proof.
  intros st e. unfold wait.
  destruct (op (world st)) as [[a | msg] w']; intros [=].
Qed.

Lemma handles_act {W : Type} (c : Ec2.Call) : handles_client_errors (@act W c).
Proof. intros st e [=]. Qed.

Lemma handles_bind {W A B : Type} (m : M W A) (k : A -> M W B) :
  handles_client_errors m -> (forall a, handles_client_errors (k a)) ->
  handles_client_errors (bind m k).
Proof.
  intros Hm Hk st e. unfold bind. specialize (Hm st e).
  destruct (m st) as [[a | e'] st1]; cbn in *.
  - apply Hk.
  - intros [= ->]. apply Hm. reflexivity.
Qed.

(** A [try] lets out only what its handler lets out, whatever the body. *)
Lemma handles_try {W A : Type} (body : M W A) (handler : string -> M W A) :
  (forall e, handles_client_errors (handler e)) ->
  handles_client_errors (try_except_ClientError body handler).
Proof.
  intros Hhandler st e. unfold try_except_ClientError.
  destruct (body st) as [[a | []] st1]; cbn; try discriminate.
  apply Hhandler.
Qed.

Lemma handles_if {W A : Type} (b : bool) (m1 m2 : M W A) :
  handles_client_errors m1 -> handles_client_errors m2 ->
  handles_client_errors (if b then m1 else m2).
Proof. destruct b; trivial. Qed.

#[local] Hint Resolve exits_with_1_ret exits_with_1_sys_exit exits_with_1_print
  exits_with_1_getitem exits_with_1_index exits_with_1_invoke exits_with_1_wait
  exits_with_1_act exits_with_1_bind exits_with_1_try exits_with_1_if
  handles_ret handles_sys_exit handles_print handles_getitem handles_index
  handles_wait handles_act handles_bind handles_try handles_if : endings.

Lemma exits_with_1_summary_loop {W : Type} (config : Document) (sg_id : string)
    (public_ips : list string) (instance_ids : list string) (i : nat) :
  exits_with_1 (@summary_loop W config sg_id public_ips i instance_ids).
Proof.
  revert i. induction instance_ids as [| instance_id rest IH]; intros i; cbn.
  - apply exits_with_1_ret.
  - auto 20 with endings.
Qed.

Lemma exits_with_1_load_config {W : Type} (host : Host) (config_path : string) :
  exits_with_1 (@load_config W host config_path).
Proof.
  unfold load_config. destruct (open_read host config_path) as [file |].
  - destruct (yaml_safe_load host file); auto with endings.
  - auto with endings.
Qed.

Lemma handles_load_config {W : Type} (host : Host) (config_path : string) :
  handles_client_errors (@load_config W host config_path).
Proof.
  unfold load_config. destruct (open_read host config_path) as [file |].
  - destruct (yaml_safe_load host file); auto with endings.
  - auto with endings.
Qed.

#[local] Hint Resolve exits_with_1_summary_loop exits_with_1_load_config
  handles_load_config : endings.

(** X20. The exit status of the process is 0 or 1 on every machine and
    every account: every [sys.exit] of the program has the code 1. *)
Theorem exit_status_is_0_or_1
    {W : Type} (host : Host) (c : Ec2.Client W) (w : W) :
  let status := exit_status (run_main host c w).1 in
  status = 0 \/ status = 1.
Proof.
  assert (H : exits_with_1 (main host c)).
  { unfold main, default_vpc, create_security_group, provision_ec2_instance.
    auto 40 with endings. }
  specialize (H (initial w)). unfold run_main. cbn.
  destruct (main host c (initial w)).1 as [[] | []]; cbn; auto.
Qed.

(** X21. Every client operation is called inside a [try] whose handler
    ends without a [ClientError]: neither [main] nor one of the three
    functions that use the client lets a [ClientError] out. *)
Theorem every_client_error_is_handled
    {W : Type} (host : Host) (c : Ec2.Client W) (w : W)
    (vpc_id sg_id : string) (sg_name sg_description : yval)
    (config : Document) (instance_ids : list string) (e : string) :
  (run_main host c w).1 <> Raise (ClientError e) /\
  (create_security_group c vpc_id sg_name sg_description (initial w)).1
    <> Raise (ClientError e) /\
  (provision_ec2_instance host c config sg_id (initial w)).1
    <> Raise (ClientError e) /\
  (cleanup_resources c instance_ids sg_id (initial w)).1
    <> Raise (ClientError e).
Proof.
  repeat split.
  - assert (H : handles_client_errors (main host c)).
    { unfold main, default_vpc, create_security_group, provision_ec2_instance.
      auto 40 with endings. }
    apply H.
  - assert (H : handles_client_errors
                  (create_security_group c vpc_id sg_name sg_description)).
    { unfold create_security_group. auto 40 with endings. }
    apply H.
  - assert (H : handles_client_errors
                  (provision_ec2_instance host c config sg_id)).
    { unfold provision_ec2_instance. auto 40 with endings. }
    apply H.
  - assert (H : handles_client_errors (cleanup_resources c instance_ids sg_id)).
    { unfold cleanup_resources. auto 40 with endings. }
    apply H.
Qed.

(** ** The whole run *)

(** [main] after a launch that returns: five more lines, no more call. *)
Lemma main_after_the_launch_returns
    {W : Type} (host : Host) (c : Ec2.Client W) (w : W)
    (file : string) (config : Document) (vpc_id sg_id : string)
    (st1 st2 st3 : State W) (instance_ids public_ips : list string) :
  open_read host "config.yaml" = Some file ->
  yaml_safe_load host file = inr config ->
  validated config ->
  default_vpc c
    {| world := w;
       calls := [answered (Ec2.NewClient (field config "aws_region"))];
       stdout := [] |}
    = (Return vpc_id, st1) ->
  create_security_group c vpc_id (field config "security_group_name")
    (field config "security_group_description") st1
    = (Return sg_id, st2) ->
  provision_ec2_instance host c config sg_id st2
    = (Return (instance_ids, public_ips), st3) ->
  run_main host c w
  = (Return tt,
     {| world := world st3;
        calls := calls st3;
        stdout :=
          stdout st3
          ++ [ newline +:+ "--- IMPORTANT: MANUAL CLEANUP REQUIRED ---";
               "Please manually terminate the created EC2 instance(s) and delete the security group from the AWS console";
               "Instance IDs: " +:+ join ", " instance_ids;
               "Security Group ID: " +:+ sg_id;
               "Alternatively, you can uncomment and call `cleanup_resources` function (USE WITH CAUTION)." ] |}).
Proof.
  intros Hopen Hyaml Hvalid Hvpc Hgroup Hlaunch.
  unfold run_main, main, load_config, bind, act, ret.
  rewrite Hopen, Hyaml.
  rewrite (getitem_validated _ _ _ Hvalid) by (cbn; tauto).
  unfold log, initial.
  cbn -[default_vpc create_security_group provision_ec2_instance getitem print].
  rewrite Hvpc.
  do 2 rewrite (getitem_validated _ _ _ Hvalid) by (cbn; tauto).
  rewrite Hgroup, Hlaunch. unfold print. cbn [fst snd world calls stdout].
  rewrite <- !app_assoc. reflexivity.
Qed.

(** X22. On a run that goes through, [main] creates or finds the security
    group in the first default VPC of the answer, launches the instances
    with the identifier that [create_security_group] returned, makes no call
    after the description of the instances, prints the cleanup notice with
    the identifiers, and ends with status 0. *)
Theorem successful_run_threads_vpc_and_group
    {W : Type} (host : Host) (c : Ec2.Client W) (w w1 w3 w4 w5 : W)
    (file : string) (config : Document)
    (first : Ec2.Vpc) (others : list Ec2.Vpc)
    (sg_id : string) (st2 : State W)
    (instances : list Ec2.Instance) (reservations : list Ec2.Reservation) :
  open_read host "config.yaml" = Some file ->
  yaml_safe_load host file = inr config ->
  validated config ->
  Ec2.describe_vpcs c default_vpc_filters w = (Ec2.Ok (first :: others), w1) ->
  create_security_group c (Ec2.VpcId first)
    (field config "security_group_name")
    (field config "security_group_description") (initial w1)
    = (Return sg_id, st2) ->
  let instance_ids := map Ec2.InstanceId instances in
  Ec2.run_instances c (launch_request host config sg_id) (world st2)
    = (Ec2.Ok instances, w3) ->
  Ec2.wait_instance_running c instance_ids w3 = (Ec2.Ok tt, w4) ->
  Ec2.describe_instances c instance_ids w4 = (Ec2.Ok reservations, w5) ->
  let run := run_main host c w in
  run.1 = Return tt /\
  exit_status run.1 = 0 /\
  world run.2 = w5 /\
  calls run.2
    = [ answered (Ec2.NewClient (field config "aws_region"));
        answered (Ec2.DescribeVpcs default_vpc_filters) ]
      ++ calls st2
      ++ [ answered (Ec2.RunInstances (launch_request host config sg_id));
           answered (Ec2.WaitInstanceRunning instance_ids);
           answered (Ec2.DescribeInstances instance_ids) ] /\
  exists before,
    stdout run.2
    = before
      ++ [ newline +:+ "--- IMPORTANT: MANUAL CLEANUP REQUIRED ---";
           "Please manually terminate the created EC2 instance(s) and delete the security group from the AWS console";
           "Instance IDs: " +:+ join ", " instance_ids;
           "Security Group ID: " +:+ sg_id;
           "Alternatively, you can uncomment and call `cleanup_resources` function (USE WITH CAUTION)." ].
Proof.
  intros Hopen Hyaml Hvalid Hvpcs Hgroup instance_ids Hlaunch Hwait Hdescribe
    run.
  unfold default_vpc_filters in Hvpcs.
  pose (st1 := {| world := w1;
                  calls := [ answered (Ec2.NewClient (field config "aws_region"));
                             answered (Ec2.DescribeVpcs default_vpc_filters) ];
                  stdout := ["Using Default VPC ID: " +:+ Ec2.VpcId first] |}).
  assert (Hvpc : default_vpc c
                   {| world := w;
                      calls := [answered (Ec2.NewClient
                                            (field config "aws_region"))];
                      stdout := [] |}
                 = (Return (Ec2.VpcId first), st1)).
  { unfold default_vpc, bind, try_except_ClientError, invoke, print, index,
      ret, log. cbn. rewrite Hvpcs. reflexivity. }
  assert (Hgroup' := appends_create_security_group c (Ec2.VpcId first)
                       (field config "security_group_name")
                       (field config "security_group_description") st1).
  change (world st1) with w1 in Hgroup'. rewrite Hgroup in Hgroup'.
  cbn [fst snd] in Hgroup'.
  assert (Hlaunch' := appends_provision_ec2_instance host c config sg_id
                        (followed_by st1 st2)).
  change (world (followed_by st1 st2)) with (world st2) in Hlaunch'.
  rewrite (launch_goes_through host c config sg_id (world st2) w3 w4 w5
             instances reservations Hvalid Hlaunch Hwait Hdescribe)
    in Hlaunch'.
  cbn [fst snd] in Hlaunch'.
  unfold run.
  rewrite (main_after_the_launch_returns host c w file config _ _ _ _ _ _ _
             Hopen Hyaml Hvalid Hvpc Hgroup' Hlaunch').
  unfold followed_by, st1. cbn [fst snd world calls stdout exit_status].
  split; [reflexivity |]. split; [reflexivity |]. split; [reflexivity |].
  split; [rewrite <- app_assoc; reflexivity |].
  rewrite app_assoc. eexists. reflexivity.
Qed.

Lemma successful_run_threads_vpc_and_group_witness :
  let config := DocMap (Scripted.config 1) in
  let host := Scripted.host_with config in
  let c := Scripted.client Scripted.fresh_account in
  let run := run_main host c 0%nat in
  run.1 = Return tt /\
  exit_status run.1 = 0 /\
  world run.2 = 8%nat /\
  count_calls is_run_instances (calls run.2) = 1%nat.
Proof.
  intros config host c run.
  destruct (successful_run_threads_vpc_and_group host c
              0%nat 1%nat 6%nat 7%nat 8%nat "..." config
              {| Ec2.VpcId := "vpc-0a1" |} [] "sg-0f1"
              (create_security_group c "vpc-0a1" (YStr "sg-test") (YStr "test")
                 (initial 1%nat)).2
              (map Scripted.instance_numbered (seq 0 1))
              [ {| Ec2.Instances :=
                     [ {| Ec2.InstanceId := "i-001";
                          Ec2.PublicIpAddress := Some "203.0.113.7" |} ] |} ]
              eq_refl eq_refl eq_refl eq_refl eq_refl eq_refl eq_refl eq_refl)
    as (Hreturn & Hstatus & Hworld & Hcalls & _).
  split; [exact Hreturn |]. split; [exact Hstatus |]. split; [exact Hworld |].
  fold run in Hcalls. rewrite Hcalls. reflexivity.
Defined.
